(** * Shift-aware due-date scheduler of the TPM system

    A shallow embedding of the scheduling core of [src/app.py]
    ([calculate_next_due], [get_task_status],
    [is_completed_in_current_shift_period], [is_same_shift_occurrence],
    [is_same_shift_week], [get_active_shift]) and the properties the
    specification states about it.

    Conventions of the embedding:
    - a Python [date] is its proleptic Gregorian ordinal ([date.toordinal()]),
      a [time] is the record of its four fields, a naive [datetime] is a pair
      of the two; comparisons are the lexicographic ones of Python;
    - code that can raise returns a [result]; [datetime] arithmetic raises
      [OverflowError] outside the years 1..9999 as in Python;
    - [datetime.now()] is an explicit argument;
    - the rows of the [shift_config] table are an explicit argument;
    - the library parsers [datetime.strptime] and [int] are parameters of the
      development: every statement holds whatever they accept. *)

From Stdlib Require Import ZArith List String Ascii Bool Lia.
Import ListNotations.
Local Open Scope Z_scope.

(** ** Exceptions and fallible computations *)

Inductive exn : Type :=
| KeyError (key : string)
| ValueError
| IndexError
| OverflowError.

Inductive result (A : Type) : Type :=
| Ok (a : A)
| Raise (e : exn).

Arguments Ok {A} a.
Arguments Raise {A} e.

Definition bind {A B : Type} (c : result A) (k : A -> result B) : result B :=
  match c with
  | Ok a => k a
  | Raise e => Raise e
  end.

Notation "x <- c ;; k" := (bind c (fun x => k))
  (at level 61, c at next level, right associativity).

Fixpoint mapM {A B : Type} (f : A -> result B) (l : list A) : result (list B) :=
  match l with
  | [] => Ok []
  | a :: rest => b <- f a ;; bs <- mapM f rest ;; Ok (b :: bs)
  end.

Definition returns {A : Type} (c : result A) : Prop := exists a, c = Ok a.

(** ** Python values used by the scheduler *)

(** Truthiness of an optional string ([None] and [''] are falsy). *)
Definition truthy (s : option string) : bool :=
  match s with
  | Some s => negb (String.eqb s "")
  | None => false
  end.

(** [sub in s] on strings. *)
Definition contains (sub s : string) : bool :=
  match String.index 0 sub s with
  | Some _ => true
  | None => false
  end.

(** [s.split(sep)] for a one-character separator. *)
Fixpoint split (sep : ascii) (s : string) : list string :=
  match s with
  | EmptyString => [EmptyString]
  | String c rest =>
      if Ascii.eqb c sep then EmptyString :: split sep rest
      else match split sep rest with
           | piece :: pieces => String c piece :: pieces
           | [] => [String c EmptyString]
           end
  end.

(** [x in l] for a list of strings and for a list of integers. *)
Definition str_in (x : string) (l : list string) : bool :=
  existsb (String.eqb x) l.

Definition z_in (x : Z) (l : list Z) : bool :=
  existsb (Z.eqb x) l.

(** [l[i]], raising [IndexError] out of range (non-negative [i] only). *)
Definition item {A : Type} (l : list A) (i : nat) : result A :=
  match nth_error l i with
  | Some a => Ok a
  | None => Raise IndexError
  end.

(** [min(l)] and [max(l)], raising [ValueError] on the empty list. *)
Definition py_min (l : list Z) : result Z :=
  match l with
  | [] => Raise ValueError
  | x :: rest => Ok (fold_left Z.min rest x)
  end.

Definition py_max (l : list Z) : result Z :=
  match l with
  | [] => Raise ValueError
  | x :: rest => Ok (fold_left Z.max rest x)
  end.

(** ** Dates, times and datetimes *)

Definition date : Type := Z.

Record time : Type := mk_time {
  hour : Z;
  minute : Z;
  second : Z;
  microsecond : Z
}.

Record datetime : Type := mk_datetime {
  date_of : date;
  time_of : time
}.

Definition MAXORDINAL : Z := 3652059.

Definition valid_time (t : time) : Prop :=
  0 <= hour t < 24 /\ 0 <= minute t < 60 /\ 0 <= second t < 60 /\
  0 <= microsecond t < 1000000.

(** Lexicographic comparison, as Python compares [time] and [datetime]. *)
Definition time_cmp (a b : time) : comparison :=
  match hour a ?= hour b with
  | Eq => match minute a ?= minute b with
          | Eq => match second a ?= second b with
                  | Eq => microsecond a ?= microsecond b
                  | c => c
                  end
          | c => c
          end
  | c => c
  end.

Definition time_ltb (a b : time) : bool :=
  match time_cmp a b with Lt => true | _ => false end.

Definition time_leb (a b : time) : bool :=
  match time_cmp a b with Gt => false | _ => true end.

Definition dt_cmp (a b : datetime) : comparison :=
  match date_of a ?= date_of b with
  | Eq => time_cmp (time_of a) (time_of b)
  | c => c
  end.

Definition dt_ltb (a b : datetime) : bool :=
  match dt_cmp a b with Lt => true | _ => false end.

Definition dt_leb (a b : datetime) : bool :=
  match dt_cmp a b with Gt => false | _ => true end.

(** [dt.weekday()]: Monday is 0; ordinal 1 is a Monday. *)
Definition weekday (d : datetime) : Z := (date_of d + 6) mod 7.

(** [dt + timedelta(days=n)]. *)
Definition add_days (d : datetime) (n : Z) : result datetime :=
  let o := date_of d + n in
  if (1 <=? o) && (o <=? MAXORDINAL) then Ok (mk_datetime o (time_of d))
  else Raise OverflowError.

(** [dt - timedelta(days=n)]. *)
Definition sub_days (d : datetime) (n : Z) : result datetime :=
  add_days d (- n).

(** [dt.replace(hour=h, minute=m, second=0, microsecond=0)]; the two fields
    always come from a [time] object. *)
Definition replace_hm (d : datetime) (h m : Z) : datetime :=
  mk_datetime (date_of d) (mk_time h m 0 0).

(** Microseconds since midnight, and since the start of ordinal 0. *)
Definition US_PER_DAY : Z := 86400000000.

Definition time_us (t : time) : Z :=
  ((hour t * 60 + minute t) * 60 + second t) * 1000000 + microsecond t.

Definition dt_us (d : datetime) : Z := date_of d * US_PER_DAY + time_us (time_of d).

(** [(a - b).days]: a [timedelta] is normalised with a non-negative
    remainder, so its day count is the floor of the quotient. *)
Definition timedelta_days (a b : datetime) : Z := (dt_us a - dt_us b) / US_PER_DAY.

(** The calendar of [datetime.date]: ordinal of year/month/day. *)
Definition is_leap (y : Z) : bool :=
  (y mod 4 =? 0) && (negb (y mod 100 =? 0) || (y mod 400 =? 0)).

Definition days_before_year (y : Z) : Z :=
  let p := y - 1 in p * 365 + p / 4 - p / 100 + p / 400.

Definition days_in_month (y m : Z) : Z :=
  if m =? 2 then (if is_leap y then 29 else 28)
  else if (m =? 4) || (m =? 6) || (m =? 9) || (m =? 11) then 30
  else 31.

Definition days_before_month (y m : Z) : Z :=
  fold_left Z.add (map (days_in_month y) (map Z.of_nat (seq 1 (Z.to_nat (m - 1))))) 0.

Definition ymd2ord (y m d : Z) : date :=
  days_before_year y + days_before_month y m + d.

Definition at_time (d : date) (h m : Z) : datetime :=
  mk_datetime d (mk_time h m 0 0).

(** [now.strftime('%a')] in the C locale. *)
Definition day_abbr (wd : Z) : string :=
  match wd with
  | 0 => "Mon" | 1 => "Tue" | 2 => "Wed" | 3 => "Thu"
  | 4 => "Fri" | 5 => "Sat" | _ => "Sun"
  end.

(** [WEEK_IDX[d]]. *)
Definition WEEK_IDX (d : string) : result Z :=
  if String.eqb d "Mon" then Ok 0
  else if String.eqb d "Tue" then Ok 1
  else if String.eqb d "Wed" then Ok 2
  else if String.eqb d "Thu" then Ok 3
  else if String.eqb d "Fri" then Ok 4
  else if String.eqb d "Sat" then Ok 5
  else if String.eqb d "Sun" then Ok 6
  else Raise (KeyError d).

(** ** The [shift_config] table *)

Record shift_row : Type := mk_shift_row {
  shift_name : string;
  start_time : string;
  end_time : string;
  active_days : string;
  display_order : Z;
  active : Z
}.

(** [SELECT * FROM shift_config WHERE shift_name = ? AND active = 1],
    [fetchone()]. *)
Definition fetch_active_shift (db : list shift_row) (name : string) : option shift_row :=
  find (fun r => String.eqb (shift_name r) name && (active r =? 1)) db.

(** [shift_row = None], then the query when [assigned_shift] is truthy. *)
Definition assigned_row (db : list shift_row) (assigned_shift : option string)
    : option shift_row :=
  match assigned_shift with
  | Some name => if truthy assigned_shift then fetch_active_shift db name else None
  | None => None
  end.

(** [[WEEK_IDX[d] for d in row['active_days'].split(',')]]. *)
Definition decode_days (row : shift_row) : result (list Z) :=
  mapM WEEK_IDX (split "," (active_days row)).

(** Task status, the strings [get_task_status] returns. *)
Inductive status : Type := completed | overdue | due | upcoming.

(** The JSON object [get_active_shift] answers with (its [timestamp] and
    [current_time] fields only format [now]). *)
Record shift_reply : Type := mk_shift_reply {
  reply_status : string;
  reply_shift : string;
  reply_note : option string
}.

Section Model.

(** [datetime.strptime(s, fmt)], [None] standing for [ValueError]. *)
Variable strptime : string -> string -> option datetime.

(** [int(s)], [None] standing for [ValueError]. *)
Variable py_int : string -> option Z.

(** The two-format parse of a completion timestamp; the third [except]
    decides what an unparseable string becomes. *)
Definition parse_completed (s : string) : option datetime :=
  match strptime s "%Y-%m-%d %H:%M:%S" with
  | Some d => Some d
  | None => strptime s "%Y-%m-%d %H:%M"
  end.

(** [datetime.strptime(s, '%H:%M').time()]. *)
Definition parse_hm (s : string) : result time :=
  match strptime s "%H:%M" with
  | Some d => Ok (time_of d)
  | None => Raise ValueError
  end.

(** *** is_same_shift_occurrence *)

Definition get_shift_date_for_time (shift_days : list Z) (start_time end_time : time)
    (dt : datetime) : result (option date) :=
  let day_idx := weekday dt in
  if negb (z_in day_idx shift_days) then Ok None
  else if time_ltb end_time start_time then
    if time_leb start_time (time_of dt) then Ok (Some (date_of dt))
    else prev <- sub_days dt 1 ;; Ok (Some (date_of prev))
  else
    if time_leb start_time (time_of dt) && time_ltb (time_of dt) end_time
    then Ok (Some (date_of dt))
    else Ok None.

Definition is_same_shift_occurrence (completion_time current_time : datetime)
    (shift_days : list Z) (start_time end_time : time) : result bool :=
  completion_shift_date <-
    get_shift_date_for_time shift_days start_time end_time completion_time ;;
  current_shift_date <-
    get_shift_date_for_time shift_days start_time end_time current_time ;;
  Ok (match completion_shift_date, current_shift_date with
      | Some c, Some n => c =? n
      | _, _ => false
      end).

(** *** is_same_shift_week *)

Definition get_shift_week_start (shift_days : list Z) (start_time end_time : time)
    (dt : datetime) : result date :=
  first_shift_day <- py_min shift_days ;;
  let days_since_first := (weekday dt - first_shift_day) mod 7 in
  week_start <- sub_days dt days_since_first ;;
  if (weekday dt =? first_shift_day) && time_ltb end_time start_time
     && time_ltb (time_of dt) start_time
  then week_start' <- sub_days week_start 7 ;; Ok (date_of week_start')
  else Ok (date_of week_start).

Definition is_same_shift_week (completion_time current_time : datetime)
    (shift_days : list Z) (start_time end_time : time) : result bool :=
  completion_week_start <-
    get_shift_week_start shift_days start_time end_time completion_time ;;
  current_week_start <-
    get_shift_week_start shift_days start_time end_time current_time ;;
  Ok (completion_week_start =? current_week_start).

(** *** is_completed_in_current_shift_period *)

Definition is_completed_in_current_shift_period (db : list shift_row) (now : datetime)
    (completion_time : datetime) (interval_type : string)
    (assigned_shift : option string) : result bool :=
  match assigned_row db assigned_shift with
  | None => Ok (date_of completion_time =? date_of now)
  | Some row =>
      shift_days <- decode_days row ;;
      start_time <- parse_hm (start_time row) ;;
      end_time <- parse_hm (end_time row) ;;
      if contains "daily" interval_type then
        is_same_shift_occurrence completion_time now shift_days start_time end_time
      else if contains "weekly" interval_type then
        is_same_shift_week completion_time now shift_days start_time end_time
      else Ok false
  end.

(** *** get_task_status *)

(** Lines 402-408: the comparison of [now] with [next_due]. *)
Definition standard_status (now next_due : datetime) : status :=
  if dt_ltb next_due now then overdue
  else if timedelta_days next_due now <? 1 then due
  else upcoming.

(** Lines 388-400: whether the completion check returns ["completed"].
    [now'] is the clock as [is_completed_in_current_shift_period] reads
    it. *)
Definition completion_check (db : list shift_row) (now' : datetime)
    (last_completed interval_type assigned_shift : option string) : result bool :=
  match last_completed, interval_type with
  | Some lc, Some it =>
      if truthy last_completed && truthy interval_type && truthy assigned_shift then
        match parse_completed lc with
        | Some last_completed_dt =>
            is_completed_in_current_shift_period db now' last_completed_dt it
              assigned_shift
        | None => Ok false
        end
      else Ok false
  | _, _ => Ok false
  end.

Definition get_task_status (db : list shift_row) (now now' : datetime)
    (next_due : datetime)
    (last_completed interval_type assigned_shift : option string) : result status :=
  done <- completion_check db now' last_completed interval_type assigned_shift ;;
  if done then Ok completed else Ok (standard_status now next_due).

(** *** calculate_next_due *)

(** Lines 264-272: the reference time. *)
Definition reference_time (now : datetime) (last_completed : option string) : datetime :=
  match last_completed with
  | Some lc =>
      if truthy last_completed then
        match parse_completed lc with
        | Some d => d
        | None => now
        end
      else now
  | None => now
  end.

(** The shift a task is scheduled against: its active days, their minimum
    and maximum, and the two times of day. *)
Record shift_domain : Type := mk_shift_domain {
  dom_days : list Z;
  dom_first_day : Z;
  dom_last_day : Z;
  dom_start : time;
  dom_end : time
}.

Definition midnight : time := mk_time 0 0 0 0.

(** The [else] of line 290: every weekday, from 00:00 to 00:00. *)
Definition virtual_shift : shift_domain :=
  mk_shift_domain [0; 1; 2; 3; 4; 5; 6] 0 6 midnight midnight.

(** Lines 275-293. *)
Definition resolve_shift (db : list shift_row) (assigned_shift : option string)
    : result shift_domain :=
  match assigned_row db assigned_shift with
  | Some row =>
      shift_days <- decode_days row ;;
      first_day <- py_min shift_days ;;
      last_day <- py_max shift_days ;;
      start_time <- parse_hm (start_time row) ;;
      end_time <- parse_hm (end_time row) ;;
      Ok (mk_shift_domain shift_days first_day last_day start_time end_time)
  | None => Ok virtual_shift
  end.

(** The [for i in range(1, 8)] loops of the two daily branches: the first
    candidate returned, or [None] when the loop runs to its end. *)
Fixpoint scan_shift_days (shift_days : list Z) (reference_time : datetime) (t : time)
    (offsets : list Z) : result (option datetime) :=
  match offsets with
  | [] => Ok None
  | i :: rest =>
      let d_idx := (weekday reference_time + i) mod 7 in
      if z_in d_idx shift_days then
        shifted <- add_days reference_time i ;;
        let candidate := replace_hm shifted (hour t) (minute t) in
        if dt_ltb reference_time candidate then Ok (Some candidate)
        else scan_shift_days shift_days reference_time t rest
      else scan_shift_days shift_days reference_time t rest
  end.

Definition range_1_8 : list Z := [1; 2; 3; 4; 5; 6; 7].

(** [interval_days or 1]. *)
Definition interval_days_or_1 (interval_days : option Z) : Z :=
  match interval_days with
  | Some n => if n =? 0 then 1 else n
  | None => 1
  end.

(** [interval_type == s], where [interval_type] may be [None]. *)
Definition type_is (interval_type : option string) (s : string) : bool :=
  match interval_type with
  | Some it => String.eqb it s
  | None => false
  end.

(** Lines 295-380: the dispatch on [interval_type] once the reference time
    and the shift are known. *)
Definition next_due_from (now reference_time : datetime) (shift : shift_domain)
    (last_completed : option string) (interval_days : option Z)
    (interval_type : option string) : result datetime :=
  let shift_days := dom_days shift in
  let first_day := dom_first_day shift in
  let last_day := dom_last_day shift in
  let start_time := dom_start shift in
  let end_time := dom_end shift in
  let ref_day_idx := weekday reference_time in
  let is_type := type_is interval_type in
  if is_type "start_shift_daily"%string then
    found <- scan_shift_days shift_days reference_time start_time range_1_8 ;;
    match found with
    | Some candidate => Ok candidate
    | None =>
        let days_until_first := (first_day - ref_day_idx) mod 7 in
        let days_until_first := if days_until_first =? 0 then 7 else days_until_first in
        shifted <- add_days reference_time days_until_first ;;
        Ok (replace_hm shifted (hour start_time) (minute start_time))
    end
  else if is_type "start_shift_weekly"%string then
    let days_until_first := (first_day - ref_day_idx) mod 7 in
    shifted <- add_days reference_time days_until_first ;;
    let candidate := replace_hm shifted (hour start_time) (minute start_time) in
    if dt_leb candidate reference_time then add_days candidate 7
    else Ok candidate
  else if is_type "end_shift_daily"%string then
    found <- scan_shift_days shift_days reference_time end_time range_1_8 ;;
    match found with
    | Some candidate => Ok candidate
    | None =>
        d0 <- item shift_days 0 ;;
        let days_until_first := (d0 - ref_day_idx) mod 7 in
        let days_until_first := if days_until_first =? 0 then 7 else days_until_first in
        shifted <- add_days reference_time days_until_first ;;
        Ok (replace_hm shifted (hour end_time) (minute end_time))
    end
  else if is_type "end_shift_weekly"%string then
    let days_until_last := (last_day - ref_day_idx) mod 7 in
    shifted <- add_days reference_time days_until_last ;;
    let candidate := replace_hm shifted (hour end_time) (minute end_time) in
    if dt_leb candidate reference_time then add_days candidate 7
    else Ok candidate
  else
    match last_completed with
    | Some lc =>
        if truthy last_completed then
          let last_completed_dt :=
            match parse_completed lc with Some d => d | None => now end in
          add_days last_completed_dt (interval_days_or_1 interval_days)
        else Ok now
    | None => Ok now
    end.

Definition calculate_next_due (db : list shift_row) (now : datetime)
    (last_completed : option string) (interval_days : option Z)
    (interval_type : option string) (assigned_shift : option string)
    : result datetime :=
  shift <- resolve_shift db assigned_shift ;;
  next_due_from now (reference_time now last_completed) shift
    last_completed interval_days interval_type.

(** *** get_active_shift *)

(** [int(parts[0]) * 60 + int(parts[1])] for [parts = s.split(':')]. *)
Definition parse_minutes (s : string) : result Z :=
  let parts := split ":" s in
  p0 <- item parts 0 ;;
  h <- match py_int p0 with Some n => Ok n | None => Raise ValueError end ;;
  p1 <- item parts 1 ;;
  m <- match py_int p1 with Some n => Ok n | None => Raise ValueError end ;;
  Ok (h * 60 + m).

(** The [for shift in shifts] loop: the value of [active_shift] when the
    loop is left. *)
Fixpoint find_active_shift (shifts : list shift_row) (current_day : string)
    (current_minutes : Z) : option string :=
  match shifts with
  | [] => None
  | shift :: rest =>
      if negb (str_in current_day (split "," (active_days shift))) then
        find_active_shift rest current_day current_minutes
      else
        match (start_minutes <- parse_minutes (start_time shift) ;;
               end_minutes <- parse_minutes (end_time shift) ;;
               Ok (start_minutes, end_minutes)) with
        | Raise _ => find_active_shift rest current_day current_minutes
        | Ok (start_minutes, end_minutes) =>
            if start_minutes <? end_minutes then
              if (start_minutes <=? current_minutes) && (current_minutes <? end_minutes)
              then Some (shift_name shift)
              else find_active_shift rest current_day current_minutes
            else
              if (start_minutes <=? current_minutes) || (current_minutes <? end_minutes)
              then Some (shift_name shift)
              else find_active_shift rest current_day current_minutes
        end
  end.

(** [shifts] is the answer of the query: the rows with [active = 1] in
    [display_order]. *)
Definition get_active_shift (shifts : list shift_row) (now : datetime) : shift_reply :=
  let current_minutes := hour (time_of now) * 60 + minute (time_of now) in
  let current_day := day_abbr (weekday now) in
  match shifts with
  | [] => mk_shift_reply "success" "A" (Some "No shifts configured"%string)
  | _ =>
      let active_shift := find_active_shift shifts current_day current_minutes in
      if truthy active_shift then
        match active_shift with
        | Some name => mk_shift_reply "success" name None
        | None => mk_shift_reply "success" "A" (Some "No shift matched current time"%string)
        end
      else mk_shift_reply "success" "A" (Some "No shift matched current time"%string)
  end.

End Model.


(** ** The task loops of the endpoints *)

(** A row of the task queries: the columns of [tasks] the loops read, and
    [last_completed], the greatest [completed_at] of the task. *)
Record task_row : Type := mk_task_row {
  task_name : string;
  task_last_completed : option string;
  task_interval_days : option Z;
  task_interval_type : option string;
  task_assigned_shift : option string
}.

(** The clock as one iteration of a task loop reads it: in
    [calculate_next_due], in [get_task_status], in
    [is_completed_in_current_shift_period], and for [days_until_due]. *)
Record readings : Type := mk_readings {
  at_due : datetime;
  at_status : datetime;
  at_period : datetime;
  at_days : datetime
}.

(** The JSON object of [ignition_run_permissive] and its HTTP status. *)
Record permissive_reply : Type := mk_permissive_reply {
  run_permissive : bool;
  reason : option string;
  error : option exn;
  http_status : Z
}.

(** The fields [get_tasks] adds to a task: [next_due] (rendered to the
    minute), [status] and [days_until_due]; [hours_until_due] is a
    floating-point quotient and is left out. *)
Record task_entry : Type := mk_task_entry {
  entry_task : task_row;
  entry_next_due : datetime;
  entry_status : status;
  entry_days_until_due : Z
}.

Definition dquote : string := String "034"%char EmptyString.

Section Endpoints.

Variable strptime : string -> string -> option datetime.

Definition task_next_due (db : list shift_row) (now : datetime) (task : task_row)
    : result datetime :=
  calculate_next_due strptime db now (task_last_completed task)
    (task_interval_days task) (task_interval_type task) (task_assigned_shift task).

Definition task_status (db : list shift_row) (now now' : datetime) (next_due : datetime)
    (task : task_row) : result status :=
  get_task_status strptime db now now' next_due (task_last_completed task)
    (task_interval_type task) (task_assigned_shift task).

(** Lines 1099-1111: the loop of [ignition_run_permissive], left at the
    first overdue task; iteration [i] reads the clock as [clock i]. *)
Fixpoint first_overdue (db : list shift_row) (clock : nat -> readings) (i : nat)
    (tasks : list task_row) : result (option task_row) :=
  match tasks with
  | [] => Ok None
  | task :: rest =>
      next_due <- task_next_due db (at_due (clock i)) task ;;
      st <- task_status db (at_status (clock i)) (at_period (clock i)) next_due task ;;
      match st with
      | overdue => Ok (Some task)
      | _ => first_overdue db clock (S i) rest
      end
  end.

(** [tasks] is the answer of the query: the active tasks of high priority
    assigned to the shift or to none. *)
Definition ignition_run_permissive (db : list shift_row) (clock : nat -> readings)
    (tasks : list task_row) : permissive_reply :=
  match first_overdue db clock 0 tasks with
  | Ok None => mk_permissive_reply true None None 200
  | Ok (Some task) =>
      mk_permissive_reply false
        (Some (String.append "High priority task "
                 (String.append dquote
                    (String.append (task_name task)
                       (String.append dquote " is overdue")))))
        None 200
  | Raise e => mk_permissive_reply false None (Some e) 500
  end.

(** Lines 632-653: the body of the loop of [get_tasks]. *)
Definition task_entry_of (db : list shift_row) (r : readings) (task : task_row)
    : result task_entry :=
  next_due <- task_next_due db (at_due r) task ;;
  st <- task_status db (at_status r) (at_period r) next_due task ;;
  Ok (mk_task_entry task next_due st (timedelta_days next_due (at_days r))).

(** Lines 629-657: the loop of [get_tasks]; a task whose processing raises
    is skipped. *)
Fixpoint list_tasks (db : list shift_row) (clock : nat -> readings) (i : nat)
    (tasks : list task_row) : list task_entry :=
  match tasks with
  | [] => []
  | task :: rest =>
      match task_entry_of db (clock i) task with
      | Ok entry => entry :: list_tasks db clock (S i) rest
      | Raise _ => list_tasks db clock (S i) rest
      end
  end.

End Endpoints.

(** A row that does not stop the run permissive: its due instant and its
    status are computed, and the status is not overdue. *)
Definition task_passes (strptime : string -> string -> option datetime)
    (db : list shift_row) (r : readings) (task : task_row) : Prop :=
  exists (d : datetime) (st : status),
    task_next_due strptime db (at_due r) task = Ok d
    /\ task_status strptime db (at_status r) (at_period r) d task = Ok st
    /\ st <> overdue.

(** The instant [i] days after the date of [ref], at the hour and minute of
    [t]. *)
Definition due_at (ref : datetime) (i : Z) (t : time) : datetime :=
  mk_datetime (date_of ref + i) (mk_time (hour t) (minute t) 0 0).

(** ** Parsers for digit-only input

    The library parsers are parameters of the model. To run it on concrete
    strings they are instantiated with parsers that accept the plain
    digit forms ([2024-01-05 23:00:00], [23:00], [17]). *)

Definition digit_of (c : ascii) : option Z :=
  let n := Z.of_N (N_of_ascii c) in
  if (48 <=? n) && (n <=? 57) then Some (n - 48) else None.

Fixpoint digits_value (acc : Z) (s : string) : option Z :=
  match s with
  | EmptyString => Some acc
  | String c rest =>
      match digit_of c with
      | Some d => digits_value (acc * 10 + d) rest
      | None => None
      end
  end.

Definition int_digits (s : string) : option Z :=
  match s with
  | EmptyString => None
  | _ => digits_value 0 s
  end.

Definition date_digits (s : string) : option date :=
  match map int_digits (split "-" s) with
  | [Some y; Some m; Some d] =>
      if (1 <=? y) && (y <=? 9999) && (1 <=? m) && (m <=? 12)
         && (1 <=? d) && (d <=? days_in_month y m)
      then Some (ymd2ord y m d) else None
  | _ => None
  end.

Definition time_digits (with_seconds : bool) (s : string) : option time :=
  match map int_digits (split ":" s), with_seconds with
  | [Some h; Some m; Some sec], true =>
      if (h <? 24) && (m <? 60) && (sec <? 60) then Some (mk_time h m sec 0) else None
  | [Some h; Some m], false =>
      if (h <? 24) && (m <? 60) then Some (mk_time h m 0 0) else None
  | _, _ => None
  end.

Definition strptime_digits (s fmt : string) : option datetime :=
  if String.eqb fmt "%H:%M" then
    option_map (mk_datetime (ymd2ord 1900 1 1)) (time_digits false s)
  else
    let with_seconds := String.eqb fmt "%Y-%m-%d %H:%M:%S" in
    if with_seconds || String.eqb fmt "%Y-%m-%d %H:%M" then
      match split " " s with
      | [d; t] =>
          match date_digits d, time_digits with_seconds t with
          | Some d, Some t => Some (mk_datetime d t)
          | _, _ => None
          end
      | _ => None
      end
    else None.

(** ** The vocabulary of the specification *)

Definition isOvernight (startTime endTime : time) : bool := time_ltb endTime startTime.

(** [shiftDateOf]: the anchor date of an instant, following section 4.2. *)
Definition shiftDateOf (activeWeekdays : list Z) (startTime endTime : time)
    (instant : datetime) : option date :=
  if negb (z_in (weekday instant) activeWeekdays) then None
  else if isOvernight startTime endTime then
    if time_leb startTime (time_of instant) then Some (date_of instant)
    else Some (date_of instant - 1)
  else
    if time_leb startTime (time_of instant) && time_ltb (time_of instant) endTime
    then Some (date_of instant)
    else None.

(** An occurrence is the window of the shift on one active calendar day
    [anchor], running into the next day when the shift is overnight. *)
Definition in_occurrence (activeWeekdays : list Z) (startTime endTime : time)
    (anchor : date) (instant : datetime) : bool :=
  z_in ((anchor + 6) mod 7) activeWeekdays &&
  (if isOvernight startTime endTime then
     ((date_of instant =? anchor) && time_leb startTime (time_of instant))
     || ((date_of instant =? anchor + 1) && time_ltb (time_of instant) endTime)
   else
     (date_of instant =? anchor) && time_leb startTime (time_of instant)
     && time_ltb (time_of instant) endTime).

Definition outside_every_occurrence (activeWeekdays : list Z) (startTime endTime : time)
    (instant : datetime) : Prop :=
  forall anchor, in_occurrence activeWeekdays startTime endTime anchor instant = false.

(** [min(activeWeekdays)] of a non-empty list. *)
Definition firstActiveDay (activeWeekdays : list Z) : Z :=
  fold_left Z.min (tl activeWeekdays) (hd 0 activeWeekdays).

(** [weekStartOf], following section 4.2. *)
Definition weekStartOf (activeWeekdays : list Z) (startTime endTime : time)
    (instant : datetime) : date :=
  let daysSinceFirst := (weekday instant - firstActiveDay activeWeekdays) mod 7 in
  let weekStart := date_of instant - daysSinceFirst in
  if (weekday instant =? firstActiveDay activeWeekdays)
     && isOvernight startTime endTime
     && time_ltb (time_of instant) startTime
  then weekStart - 7
  else weekStart.

(** The classification of section 4.4, step 2, on instants counted in
    microseconds; the day count is truncated toward zero. *)
Definition classify (now nextDue : datetime) : status :=
  if dt_us nextDue <? dt_us now then overdue
  else if Z.quot (dt_us nextDue - dt_us now) US_PER_DAY <? 1 then due
  else upcoming.

(** The four interval types that are not legacy. *)
Definition non_legacy : list string :=
  ["start_shift_daily"; "start_shift_weekly"; "end_shift_daily"; "end_shift_weekly"]%string.

(** A row whose three encoded fields decode. *)
Definition well_formed_row (strptime : string -> string -> option datetime)
    (row : shift_row) : Prop :=
  returns (decode_days row)
  /\ returns (parse_hm strptime (start_time row))
  /\ returns (parse_hm strptime (end_time row)).



Definition fallback_reply (note : string) : shift_reply :=
  mk_shift_reply "success" "A" (Some note).

(** ** Concrete configurations and instants *)

(** [SHIFT_DEFS], as [init_db] stores them. *)
Definition default_shifts : list shift_row :=
  [ mk_shift_row "A" "04:30" "15:30" "Mon,Tue,Wed,Thu" 1 1;
    mk_shift_row "B" "16:30" "03:30" "Mon,Tue,Wed,Thu" 2 1;
    mk_shift_row "C" "05:00" "17:00" "Fri,Sat,Sun" 3 1;
    mk_shift_row "D" "17:00" "05:00" "Fri,Sat,Sun" 4 1 ].

(** A shift imported without [active_days]: [import_data] stores ['']. *)
Definition imported_shift : shift_row :=
  mk_shift_row "E" "06:00" "14:00" "" 5 1.

Definition mon : date := ymd2ord 2024 1 8.
Definition fri : date := ymd2ord 2024 1 5.
Definition sat : date := ymd2ord 2024 1 6.

Definition hm (h m : Z) : time := mk_time h m 0 0.

(** * Properties *)

(** ** Fallible computations *)

Lemma bind_Ok_inv {A B : Type} (c : result A) (k : A -> result B) (b : B) :
  bind c k = Ok b -> exists a, c = Ok a /\ k a = Ok b.
Proof.
  destruct c as [a | e]; simpl; intro H.
  - exists a. split; [reflexivity | exact H].
  - discriminate H.
Qed.

Lemma returns_Ok {A : Type} (a : A) : returns (Ok a).
Proof. exists a. reflexivity. Qed.

Ltac inv_bind H :=
  let a := fresh "a" in
  let Ha := fresh "Ha" in
  apply bind_Ok_inv in H; destruct H as [a [Ha H]].

(** ** Comparison of times and datetimes *)

Lemma time_cmp_refl (t : time) : time_cmp t t = Eq.
Proof. unfold time_cmp. now rewrite !Z.compare_refl. Qed.

Lemma dt_cmp_refl (d : datetime) : dt_cmp d d = Eq.
Proof. unfold dt_cmp. now rewrite Z.compare_refl, time_cmp_refl. Qed.

Lemma dt_ltb_irrefl (d : datetime) : dt_ltb d d = false.
Proof. unfold dt_ltb. now rewrite dt_cmp_refl. Qed.

Lemma dt_ltb_of_date_lt (a b : datetime) :
  date_of a < date_of b -> dt_ltb a b = true.
Proof.
  intro H. unfold dt_ltb, dt_cmp.
  apply Z.compare_lt_iff in H. now rewrite H.
Qed.

Lemma dt_leb_false_ltb (a b : datetime) : dt_leb a b = false -> dt_ltb b a = true.
Proof.
  unfold dt_leb, dt_ltb, dt_cmp.
  rewrite (Z.compare_antisym (date_of a) (date_of b)).
  destruct (date_of a ?= date_of b); simpl; try discriminate; try reflexivity.
  unfold time_cmp.
  rewrite (Z.compare_antisym (hour (time_of a)) (hour (time_of b))).
  rewrite (Z.compare_antisym (minute (time_of a)) (minute (time_of b))).
  rewrite (Z.compare_antisym (second (time_of a)) (second (time_of b))).
  rewrite (Z.compare_antisym (microsecond (time_of a)) (microsecond (time_of b))).
  destruct (hour (time_of a) ?= hour (time_of b)); simpl; try discriminate; try reflexivity.
  destruct (minute (time_of a) ?= minute (time_of b)); simpl; try discriminate; try reflexivity.
  destruct (second (time_of a) ?= second (time_of b)); simpl; try discriminate; try reflexivity.
  destruct (microsecond (time_of a) ?= microsecond (time_of b)); simpl;
    try discriminate; reflexivity.
Qed.

Lemma time_cmp_us (a b : time) :
  valid_time a -> valid_time b -> time_cmp a b = (time_us a ?= time_us b).
Proof.
  intros (Ha1 & Ha2 & Ha3 & Ha4) (Hb1 & Hb2 & Hb3 & Hb4).
  unfold time_cmp, time_us. symmetry.
  destruct (Z.compare_spec (hour a) (hour b)) as [Eh | Lh | Gh];
    [ | apply Z.compare_lt_iff; lia | apply Z.compare_gt_iff; lia ].
  destruct (Z.compare_spec (minute a) (minute b)) as [Em | Lm | Gm];
    [ | apply Z.compare_lt_iff; lia | apply Z.compare_gt_iff; lia ].
  destruct (Z.compare_spec (second a) (second b)) as [Es | Ls | Gs];
    [ | apply Z.compare_lt_iff; lia | apply Z.compare_gt_iff; lia ].
  destruct (Z.compare_spec (microsecond a) (microsecond b)) as [Eu | Lu | Gu];
    [ apply Z.compare_eq_iff; lia | apply Z.compare_lt_iff; lia
    | apply Z.compare_gt_iff; lia ].
Qed.

Lemma time_us_range (t : time) : valid_time t -> 0 <= time_us t < US_PER_DAY.
Proof.
  intros (H1 & H2 & H3 & H4). unfold time_us, US_PER_DAY. lia.
Qed.

Lemma dt_cmp_us (a b : datetime) :
  valid_time (time_of a) -> valid_time (time_of b) ->
  dt_cmp a b = (dt_us a ?= dt_us b).
Proof.
  intros Ha Hb. unfold dt_cmp, dt_us.
  pose proof (time_us_range _ Ha) as Ra. pose proof (time_us_range _ Hb) as Rb.
  unfold US_PER_DAY in *. symmetry.
  destruct (Z.compare_spec (date_of a) (date_of b)) as [E | L | G].
  - rewrite (time_cmp_us _ _ Ha Hb), E.
    destruct (Z.compare_spec (time_us (time_of a)) (time_us (time_of b)));
      [ apply Z.compare_eq_iff | apply Z.compare_lt_iff | apply Z.compare_gt_iff ]; lia.
  - apply Z.compare_lt_iff; lia.
  - apply Z.compare_gt_iff; lia.
Qed.

(** ** Arithmetic on dates *)

Lemma add_days_in_range (d : datetime) (n : Z) :
  1 <= date_of d + n <= MAXORDINAL ->
  add_days d n = Ok (mk_datetime (date_of d + n) (time_of d)).
Proof.
  intro H. unfold add_days.
  replace ((1 <=? date_of d + n) && (date_of d + n <=? MAXORDINAL)) with true;
    [reflexivity | ].
  symmetry. apply andb_true_iff. split; apply Z.leb_le; lia.
Qed.

Lemma add_days_Ok (d d' : datetime) (n : Z) :
  add_days d n = Ok d' -> date_of d' = date_of d + n /\ time_of d' = time_of d.
Proof.
  unfold add_days.
  destruct ((1 <=? date_of d + n) && (date_of d + n <=? MAXORDINAL)); intro H;
    inversion H; subst; simpl; split; reflexivity.
Qed.

Lemma sub_days_in_range (d : datetime) (n : Z) :
  1 <= date_of d - n <= MAXORDINAL ->
  sub_days d n = Ok (mk_datetime (date_of d - n) (time_of d)).
Proof.
  intro H. unfold sub_days. rewrite add_days_in_range by lia.
  f_equal.
Qed.

Lemma py_min_firstActiveDay (days : list Z) :
  days <> [] -> py_min days = Ok (firstActiveDay days).
Proof.
  destruct days as [ | x rest]; [congruence | reflexivity].
Qed.

(** ** OccurrencePeriodMatcher *)

Lemma get_shift_date_for_time_spec (days : list Z) (st et : time) (dt : datetime) :
  1 < date_of dt <= MAXORDINAL ->
  get_shift_date_for_time days st et dt = Ok (shiftDateOf days st et dt).
Proof.
  intro R. unfold get_shift_date_for_time, shiftDateOf, isOvernight.
  destruct (negb (z_in (weekday dt) days)); [reflexivity | ].
  destruct (time_ltb et st).
  - destruct (time_leb st (time_of dt)); [reflexivity | ].
    rewrite sub_days_in_range by lia. reflexivity.
  - destruct (time_leb st (time_of dt) && time_ltb (time_of dt) et); reflexivity.
Qed.

Lemma outside_same_day_no_anchor (days : list Z) (st et : time) (c : datetime) :
  isOvernight st et = false ->
  outside_every_occurrence days st et c ->
  shiftDateOf days st et c = None.
Proof.
  intros Hov Hout. specialize (Hout (date_of c)).
  unfold in_occurrence in Hout. rewrite Hov, Z.eqb_refl in Hout.
  unfold shiftDateOf. rewrite Hov. fold (weekday c) in Hout.
  destruct (z_in (weekday c) days); simpl in *; [ | reflexivity].
  now rewrite Hout.
Qed.

(** C3. The regression of the specification for the overnight shift 17:00 to
    05:00 active on Friday only, run on the code: a completion on Friday
    23:00 and a reference on Saturday 04:00 are NOT the same occurrence,
    because Saturday is not an active weekday and [get_shift_date_for_time]
    tests the weekday of the instant before it looks at the overnight tail.
    The reference on Saturday 06:00 is not the same occurrence either. With
    the shifts of [SHIFT_DEFS] the same happens to shift D on Monday 04:00
    for a completion on Sunday 23:00: the completion check answers false. *)
Theorem overnight_tail_on_inactive_day :
  is_same_shift_occurrence (at_time fri 23 0) (at_time sat 4 0) [4] (hm 17 0) (hm 5 0)
    = Ok false
  /\ is_same_shift_occurrence (at_time fri 23 0) (at_time sat 6 0) [4] (hm 17 0) (hm 5 0)
    = Ok false
  /\ completion_check strptime_digits default_shifts (at_time mon 4 0)
       (Some "2024-01-07 23:00:00"%string) (Some "start_shift_daily"%string)
       (Some "D"%string) = Ok false.
Proof.
  split; [ | split]; vm_compute; reflexivity.
Qed.

(** For instants whose previous day is a date, the result of
    [is_same_shift_occurrence] is true iff both anchor dates of [shiftDateOf]
    are defined and equal; and it is false for every reference instant when
    the completion falls on a weekday that is not active, or when the shift
    is not overnight and the completion lies outside every occurrence. *)
Lemma same_occurrence_iff_anchor (days : list Z) (st et : time) (c n : datetime) :
  1 < date_of c <= MAXORDINAL ->
  1 < date_of n <= MAXORDINAL ->
  exists b,
    is_same_shift_occurrence c n days st et = Ok b
    /\ (b = true <->
        exists a, shiftDateOf days st et c = Some a /\ shiftDateOf days st et n = Some a)
    /\ (z_in (weekday c) days = false \/
        (isOvernight st et = false /\ outside_every_occurrence days st et c) ->
        b = false).
Proof.
  intros Rc Rn. unfold is_same_shift_occurrence.
  rewrite !get_shift_date_for_time_spec by assumption. simpl.
  eexists. split; [reflexivity | ]. split.
  - destruct (shiftDateOf days st et c) as [a | ], (shiftDateOf days st et n) as [a' | ].
    + rewrite Z.eqb_eq. split.
      * intros ->. exists a'. split; reflexivity.
      * intros (x & Hc & Hn). congruence.
    + split; [discriminate | intros (x & _ & Hn); discriminate].
    + split; [discriminate | intros (x & Hc & _); discriminate].
    + split; [discriminate | intros (x & Hc & _); discriminate].
  - intros [Hday | [Hov Hout]].
    + unfold shiftDateOf at 1. rewrite Hday. reflexivity.
    + rewrite (outside_same_day_no_anchor _ _ _ _ Hov Hout). reflexivity.
Qed.

(** C4. The claim run on the code: for the overnight shift 17:00 to 05:00
    active on Friday, a completion on Friday 10:00 lies outside every
    occurrence of the shift, yet [is_same_shift_occurrence] answers true for
    a reference on Friday 12:00. Both instants get Thursday as their anchor
    date: the overnight branch of [get_shift_date_for_time] takes every time
    before the start for the tail of the previous day, without comparing it
    with the end time as the same-day branch does. With the shifts of
    [SHIFT_DEFS], a completion on Monday 10:00 counts as done for shift B
    (16:30 to 03:30, Monday to Thursday) at Monday 12:00. *)
Theorem gap_completion_same_occurrence :
  outside_every_occurrence [4] (hm 17 0) (hm 5 0) (at_time fri 10 0)
  /\ get_shift_date_for_time [4] (hm 17 0) (hm 5 0) (at_time fri 10 0) = Ok (Some (fri - 1))
  /\ is_same_shift_occurrence (at_time fri 10 0) (at_time fri 12 0) [4] (hm 17 0) (hm 5 0)
     = Ok true
  /\ completion_check strptime_digits default_shifts (at_time mon 12 0)
       (Some "2024-01-08 10:00:00"%string) (Some "start_shift_daily"%string)
       (Some "B"%string) = Ok true.
Proof.
  split; [ | split; [ | split]; vm_compute; reflexivity].
  intro anchor. unfold in_occurrence.
  replace (isOvernight (hm 17 0) (hm 5 0)) with true by reflexivity.
  replace (time_leb (hm 17 0) (time_of (at_time fri 10 0))) with false by reflexivity.
  replace (time_ltb (time_of (at_time fri 10 0)) (hm 5 0)) with false by reflexivity.
  now rewrite !andb_false_r.
Qed.

Lemma get_shift_week_start_spec (days : list Z) (st et : time) (dt : datetime) :
  days <> [] ->
  14 <= date_of dt <= MAXORDINAL ->
  get_shift_week_start days st et dt = Ok (weekStartOf days st et dt).
Proof.
  intros Hne R. unfold get_shift_week_start, weekStartOf, isOvernight.
  rewrite (py_min_firstActiveDay _ Hne). simpl.
  set (f := firstActiveDay days).
  pose proof (Z.mod_pos_bound (weekday dt - f) 7 ltac:(lia)) as Hk.
  rewrite sub_days_in_range by lia. simpl.
  destruct ((weekday dt =? f) && time_ltb et st && time_ltb (time_of dt) st).
  - rewrite sub_days_in_range by (simpl; lia). reflexivity.
  - reflexivity.
Qed.

(** C5. For a non-empty list of active days and instants at least two weeks
    into the calendar, [get_shift_week_start] is [weekStartOf]: the date
    minus [(weekday - min(activeWeekdays)) mod 7] days, and seven more days
    back exactly when the weekday is the first active one, the shift is
    overnight and the time of day is before the start time;
    [is_same_shift_week] is true iff the two week starts are equal. For the
    overnight shift 16:30 to 03:30 active on Monday, Monday 02:00 resolves to
    the Monday of the week before and Monday 17:00 to that same Monday. *)
Theorem same_shift_week_spec :
  (forall (days : list Z) (st et : time) (c n : datetime),
      days <> [] ->
      14 <= date_of c <= MAXORDINAL ->
      14 <= date_of n <= MAXORDINAL ->
      get_shift_week_start days st et c = Ok (weekStartOf days st et c)
      /\ get_shift_week_start days st et n = Ok (weekStartOf days st et n)
      /\ exists b,
           is_same_shift_week c n days st et = Ok b
           /\ (b = true <-> weekStartOf days st et c = weekStartOf days st et n))
  /\ (forall monday : date,
        (monday + 6) mod 7 = 0 ->
        14 <= monday <= MAXORDINAL ->
        get_shift_week_start [0] (hm 16 30) (hm 3 30) (at_time monday 2 0)
          = Ok (monday - 7)
        /\ get_shift_week_start [0] (hm 16 30) (hm 3 30) (at_time monday 17 0)
          = Ok monday).
Proof.
  split.
  - intros days st et c n Hne Rc Rn.
    pose proof (get_shift_week_start_spec days st et c Hne Rc) as Hc.
    pose proof (get_shift_week_start_spec days st et n Hne Rn) as Hn.
    split; [exact Hc | ]. split; [exact Hn | ].
    unfold is_same_shift_week. rewrite Hc, Hn. simpl.
    eexists. split; [reflexivity | ]. apply Z.eqb_eq.
  - intros monday Hwd R.
    assert (Hne : [0] <> @nil Z) by discriminate.
    split.
    + rewrite get_shift_week_start_spec by (try exact Hne; simpl; lia).
      unfold weekStartOf, weekday. simpl date_of. rewrite Hwd.
      cbn. f_equal. lia.
    + rewrite get_shift_week_start_spec by (try exact Hne; simpl; lia).
      unfold weekStartOf, weekday. simpl date_of. rewrite Hwd.
      cbn. f_equal. lia.
Qed.

Lemma same_shift_week_spec_witness :
  get_shift_week_start [0] (hm 16 30) (hm 3 30) (at_time mon 2 0) = Ok (mon - 7)
  /\ get_shift_week_start [0] (hm 16 30) (hm 3 30) (at_time mon 17 0) = Ok mon
  /\ exists b,
       is_same_shift_week (at_time mon 2 0) (at_time mon 17 0) [0] (hm 16 30) (hm 3 30)
         = Ok b
       /\ (b = true <->
           weekStartOf [0] (hm 16 30) (hm 3 30) (at_time mon 2 0)
           = weekStartOf [0] (hm 16 30) (hm 3 30) (at_time mon 17 0)).
Proof.
  destruct same_shift_week_spec as [Hgen Hmon].
  destruct (Hmon mon) as [H2 H17].
  - reflexivity.
  - vm_compute. split; discriminate.
  - split; [exact H2 | ]. split; [exact H17 | ].
    destruct (Hgen [0] (hm 16 30) (hm 3 30) (at_time mon 2 0) (at_time mon 17 0))
      as (_ & _ & Hb).
    + discriminate.
    + vm_compute. split; discriminate.
    + vm_compute. split; discriminate.
    + exact Hb.
Defined.

(** ** StatusResolver *)

Lemma standard_status_classify (now next_due : datetime) :
  valid_time (time_of now) -> valid_time (time_of next_due) ->
  standard_status now next_due = classify now next_due.
Proof.
  intros Hn Hd. unfold standard_status, classify, dt_ltb, timedelta_days.
  rewrite (dt_cmp_us _ _ Hd Hn). unfold Z.ltb at 2.
  destruct (Z.compare_spec (dt_us next_due) (dt_us now)) as [E | L | G];
    try reflexivity.
  - rewrite Z.quot_div_nonneg by (unfold US_PER_DAY; lia). reflexivity.
  - rewrite Z.quot_div_nonneg by (unfold US_PER_DAY; lia). reflexivity.
Qed.

Lemma get_task_status_not_completed
    (strptime : string -> string -> option datetime) (db : list shift_row)
    (now now' next_due : datetime) (lc it ashift : option string) :
  completion_check strptime db now' lc it ashift = Ok false ->
  get_task_status strptime db now now' next_due lc it ashift
    = Ok (standard_status now next_due).
Proof.
  intro H. unfold get_task_status. rewrite H. reflexivity.
Qed.

(** C6. When the completion check does not answer completed, the status is
    overdue iff [now] is after [next_due], else due iff the number of whole
    days from [now] to [next_due], truncated toward zero, is below one, else
    upcoming. With no completion record, a due instant ten hours ahead is
    due, one minute back is overdue, three days ahead is upcoming. *)
Theorem status_classification :
  (forall (strptime : string -> string -> option datetime) (db : list shift_row)
          (now now' next_due : datetime) (lc it ashift : option string),
      valid_time (time_of now) -> valid_time (time_of next_due) ->
      completion_check strptime db now' lc it ashift = Ok false ->
      get_task_status strptime db now now' next_due lc it ashift
        = Ok (classify now next_due))
  /\ (forall (strptime : string -> string -> option datetime) (db : list shift_row)
             (now now' next_due : datetime) (it ashift : option string),
        valid_time (time_of now) -> valid_time (time_of next_due) ->
        (dt_us next_due = dt_us now + 10 * 3600 * 1000000 ->
         get_task_status strptime db now now' next_due None it ashift = Ok due)
        /\ (dt_us next_due = dt_us now - 60 * 1000000 ->
            get_task_status strptime db now now' next_due None it ashift = Ok overdue)
        /\ (dt_us next_due = dt_us now + 3 * US_PER_DAY ->
            get_task_status strptime db now now' next_due None it ashift = Ok upcoming)).
Proof.
  split.
  - intros strptime db now now' next_due lc it ashift Hn Hd Hc.
    rewrite (get_task_status_not_completed _ _ _ _ _ _ _ _ Hc).
    now rewrite standard_status_classify.
  - intros strptime db now now' next_due it ashift Hn Hd.
    assert (Hs : get_task_status strptime db now now' next_due None it ashift
                 = Ok (classify now next_due)).
    { rewrite get_task_status_not_completed by reflexivity.
      now rewrite standard_status_classify. }
    rewrite Hs. unfold classify, US_PER_DAY.
    repeat split; intros ->.
    + replace (dt_us now + 10 * 3600 * 1000000 <? dt_us now) with false
        by (symmetry; apply Z.ltb_ge; lia).
      replace (dt_us now + 10 * 3600 * 1000000 - dt_us now) with 36000000000 by lia.
      reflexivity.
    + replace (dt_us now - 60 * 1000000 <? dt_us now) with true
        by (symmetry; apply Z.ltb_lt; lia).
      reflexivity.
    + replace (dt_us now + 3 * 86400000000 <? dt_us now) with false
        by (symmetry; apply Z.ltb_ge; lia).
      replace (dt_us now + 3 * 86400000000 - dt_us now) with (3 * 86400000000) by lia.
      reflexivity.
Qed.

Lemma status_classification_witness :
  get_task_status strptime_digits default_shifts
    (at_time mon 6 0) (at_time mon 6 0) (at_time mon 16 0)
    None (Some "start_shift_daily"%string) (Some "A"%string) = Ok due
  /\ get_task_status strptime_digits default_shifts
       (at_time mon 6 0) (at_time mon 6 0) (at_time mon 5 59)
       None (Some "start_shift_daily"%string) (Some "A"%string) = Ok overdue
  /\ get_task_status strptime_digits default_shifts
       (at_time mon 6 0) (at_time mon 6 0) (at_time (mon + 3) 6 0)
       None (Some "start_shift_daily"%string) (Some "A"%string) = Ok upcoming
  /\ get_task_status strptime_digits default_shifts
       (at_time mon 6 0) (at_time mon 6 0) (at_time mon 16 0)
       (Some "never"%string) (Some "start_shift_daily"%string) (Some "A"%string)
     = Ok (classify (at_time mon 6 0) (at_time mon 16 0)).
Proof.
  destruct status_classification as [Hgen Hscen].
  assert (V : forall d h m, 0 <= h < 24 -> 0 <= m < 60 -> valid_time (time_of (at_time d h m))).
  { intros d h m Hh Hm. unfold valid_time. simpl. lia. }
  split; [ | split; [ | split ] ].
  - apply (Hscen strptime_digits default_shifts (at_time mon 6 0) (at_time mon 6 0)
             (at_time mon 16 0)); [apply V; lia | apply V; lia | reflexivity].
  - apply (Hscen strptime_digits default_shifts (at_time mon 6 0) (at_time mon 6 0)
             (at_time mon 5 59)); [apply V; lia | apply V; lia | reflexivity].
  - apply (Hscen strptime_digits default_shifts (at_time mon 6 0) (at_time mon 6 0)
             (at_time (mon + 3) 6 0)); [apply V; lia | apply V; lia | reflexivity].
  - apply Hgen; [apply V; lia | apply V; lia | reflexivity].
Defined.

(** C10. When the completion check does not answer completed and [now] is
    exactly [next_due], the status is due, not overdue. *)
Theorem due_at_exact_instant
    (strptime : string -> string -> option datetime) (db : list shift_row)
    (now now' : datetime) (lc it ashift : option string) :
  completion_check strptime db now' lc it ashift = Ok false ->
  get_task_status strptime db now now' now lc it ashift = Ok due.
Proof.
  intro Hc. rewrite (get_task_status_not_completed _ _ _ _ _ _ _ _ Hc).
  unfold standard_status, timedelta_days.
  rewrite dt_ltb_irrefl, Z.sub_diag. reflexivity.
Qed.

Lemma due_at_exact_instant_witness :
  get_task_status strptime_digits default_shifts
    (at_time mon 16 30) (at_time mon 16 30) (at_time mon 16 30)
    (Some "2024-01-05 23:00:00"%string) (Some "start_shift_daily"%string)
    (Some "B"%string) = Ok due.
Proof.
  apply due_at_exact_instant. vm_compute. reflexivity.
Defined.

(** When the period check of the code itself answers true
    ([is_same_shift_occurrence] for an interval type with [daily] in it,
    [is_same_shift_week] for one with [weekly] and no [daily]), the status
    is completed, whatever [next_due] is, also when [now] is after it. *)
Theorem completion_overrides_due_date
    (strptime : string -> string -> option datetime) (db : list shift_row)
    (now now' next_due : datetime) (lc it name : string)
    (row : shift_row) (days : list Z) (st et : time) (dt : datetime) :
  lc <> ""%string -> it <> ""%string -> name <> ""%string ->
  parse_completed strptime lc = Some dt ->
  fetch_active_shift db name = Some row ->
  decode_days row = Ok days ->
  parse_hm strptime (start_time row) = Ok st ->
  parse_hm strptime (end_time row) = Ok et ->
  (contains "daily" it = true
   /\ is_same_shift_occurrence dt now' days st et = Ok true)
  \/ (contains "daily" it = false /\ contains "weekly" it = true
      /\ is_same_shift_week dt now' days st et = Ok true) ->
  get_task_status strptime db now now' next_due (Some lc) (Some it) (Some name)
    = Ok completed.
Proof.
  intros Hlc Hit Hname Hparse Hrow Hdays Hst Het Hperiod.
  apply String.eqb_neq in Hlc, Hit, Hname.
  unfold get_task_status, completion_check, truthy.
  rewrite Hlc, Hit, Hname. simpl negb. simpl andb. cbv iota.
  rewrite Hparse.
  unfold is_completed_in_current_shift_period, assigned_row, truthy.
  rewrite Hname. simpl negb. cbv iota.
  rewrite Hrow, Hdays, Hst, Het. simpl bind at 2.
  destruct Hperiod as [[Hd Hocc] | (Hd & Hw & Hweek)].
  - cbn -[contains is_same_shift_occurrence is_same_shift_week].
    rewrite Hd, Hocc. reflexivity.
  - cbn -[contains is_same_shift_occurrence is_same_shift_week].
    rewrite Hd, Hw, Hweek. reflexivity.
Qed.

Lemma completion_overrides_due_date_witness :
  dt_ltb (at_time mon 16 30) (at_time mon 23 0) = true
  /\ get_task_status strptime_digits default_shifts
       (at_time mon 23 0) (at_time mon 23 0) (at_time mon 16 30)
       (Some "2024-01-08 22:10:00"%string) (Some "start_shift_daily"%string)
       (Some "B"%string) = Ok completed.
Proof.
  split; [reflexivity | ].
  apply (completion_overrides_due_date strptime_digits default_shifts
           (at_time mon 23 0) (at_time mon 23 0) (at_time mon 16 30)
           "2024-01-08 22:10:00" "start_shift_daily" "B"
           (mk_shift_row "B" "16:30" "03:30" "Mon,Tue,Wed,Thu" 2 1)
           [0; 1; 2; 3] (hm 16 30) (hm 3 30) (at_time mon 22 10));
    try discriminate; try reflexivity.
  left. split; reflexivity.
Defined.

(** ** DueDateCalculator *)

Lemma mod7_or_7_range (k : Z) :
  1 <= (if k mod 7 =? 0 then 7 else k mod 7) <= 7.
Proof.
  pose proof (Z.mod_pos_bound k 7 ltac:(lia)) as H.
  destruct (Z.eqb_spec (k mod 7) 0); lia.
Qed.

Lemma replace_hm_after (ref shifted : datetime) (h m : Z) :
  date_of ref < date_of shifted -> dt_ltb ref (replace_hm shifted h m) = true.
Proof. intro H. apply dt_ltb_of_date_lt. exact H. Qed.

Lemma scan_shift_days_after (days : list Z) (ref : datetime) (t : time)
    (offsets : list Z) (c : datetime) :
  scan_shift_days days ref t offsets = Ok (Some c) -> dt_ltb ref c = true.
Proof.
  induction offsets as [ | i rest IH]; simpl; intro H.
  - discriminate H.
  - destruct (z_in ((weekday ref + i) mod 7) days); [ | exact (IH H)].
    inv_bind H.
    destruct (dt_ltb ref (replace_hm a (hour t) (minute t))) eqn:Hlt.
    + inversion H; subst. exact Hlt.
    + exact (IH H).
Qed.

Lemma scan_shift_days_returns (days : list Z) (ref : datetime) (t : time)
    (offsets : list Z) :
  Forall (fun i => 1 <= date_of ref + i <= MAXORDINAL) offsets ->
  returns (scan_shift_days days ref t offsets).
Proof.
  induction 1 as [ | i rest Hi _ IH]; simpl.
  - apply returns_Ok.
  - destruct (z_in ((weekday ref + i) mod 7) days); [ | exact IH].
    rewrite (add_days_in_range _ _ Hi). simpl.
    destruct (dt_ltb ref _); [apply returns_Ok | exact IH].
Qed.

(** On the days a configuration can decode to (weekday indices, at least
    one), the scan of the two daily branches always finds a candidate: their
    fallbacks are not reached. *)
Lemma scan_shift_days_finds (days : list Z) (ref : datetime) (t : time) :
  days <> [] ->
  Forall (fun d => 0 <= d < 7) days ->
  1 <= date_of ref -> date_of ref + 7 <= MAXORDINAL ->
  exists c, scan_shift_days days ref t range_1_8 = Ok (Some c).
Proof.
  intros Hne Hall R1 R2.
  assert (Hin : exists i, 1 <= i <= 7 /\ z_in ((weekday ref + i) mod 7) days = true).
  { destruct days as [ | d rest]; [congruence | ].
    inversion Hall as [ | ? ? Hd _]; subst.
    pose proof (Z.mod_pos_bound (d - weekday ref) 7 ltac:(lia)) as Hk.
    exists (if (d - weekday ref) mod 7 =? 0 then 7 else (d - weekday ref) mod 7).
    split; [apply mod7_or_7_range | ].
    assert (E : (weekday ref +
                 (if (d - weekday ref) mod 7 =? 0 then 7 else (d - weekday ref) mod 7))
                mod 7 = d).
    { destruct (Z.eqb_spec ((d - weekday ref) mod 7) 0) as [E0 | E0].
      - replace (weekday ref + 7) with (weekday ref + 1 * 7) by lia.
        rewrite Z.mod_add by lia.
        apply Z.mod_divide in E0; [ | lia]. destruct E0 as [q Hq].
        replace (weekday ref) with (d + (- q) * 7) by lia.
        rewrite Z.mod_add by lia. apply Z.mod_small. lia.
      - rewrite Zplus_mod_idemp_r.
        replace (weekday ref + (d - weekday ref)) with d by lia.
        apply Z.mod_small. lia. }
    rewrite E. simpl. now rewrite Z.eqb_refl. }
  destruct Hin as (i & Hi & Hz).
  assert (Hall7 : forall j, 1 <= j <= 7 -> 1 <= date_of ref + j <= MAXORDINAL) by (intros; lia).
  assert (Hgt : forall j, 1 <= j ->
            dt_ltb ref (replace_hm (mk_datetime (date_of ref + j) (time_of ref))
                          (hour t) (minute t)) = true).
  { intros j Hj. apply dt_ltb_of_date_lt. simpl. lia. }
  unfold range_1_8, scan_shift_days.
  repeat match goal with
  | |- context [z_in ((weekday ref + ?j) mod 7) days] =>
      destruct (z_in ((weekday ref + j) mod 7) days) eqn:?;
      [ rewrite (add_days_in_range ref j) by (apply Hall7; lia); simpl;
        rewrite (Hgt j) by lia; eexists; reflexivity | ]
  end.
  assert (Hcases : i = 1 \/ i = 2 \/ i = 3 \/ i = 4 \/ i = 5 \/ i = 6 \/ i = 7) by lia.
  destruct Hcases as [-> | [-> | [-> | [-> | [-> | [-> | ->]]]]]]; congruence.
Qed.

Lemma weekly_candidate_after (ref : datetime) (k h m : Z) (d : datetime) :
  0 <= k ->
  (shifted <- add_days ref k ;;
   let candidate := replace_hm shifted h m in
   if dt_leb candidate ref then add_days candidate 7 else Ok candidate) = Ok d ->
  dt_ltb ref d = true.
Proof.
  intros Hk H. inv_bind H. apply add_days_Ok in Ha. destruct Ha as [Hd _].
  cbv zeta in H.
  destruct (dt_leb (replace_hm a h m) ref) eqn:Hle.
  - apply add_days_Ok in H. destruct H as [Hd' _]. simpl in Hd'.
    apply dt_ltb_of_date_lt. lia.
  - inversion H; subst. apply dt_leb_false_ltb. exact Hle.
Qed.

Lemma fallback_after (ref : datetime) (k h m : Z) (d : datetime) :
  (shifted <- add_days ref (if k mod 7 =? 0 then 7 else k mod 7) ;;
   Ok (replace_hm shifted h m)) = Ok d ->
  dt_ltb ref d = true.
Proof.
  intro H. inv_bind H. apply add_days_Ok in Ha. destruct Ha as [Hd _].
  inversion H; subst. apply replace_hm_after.
  pose proof (mod7_or_7_range k). lia.
Qed.

Lemma next_due_from_after
    (strptime : string -> string -> option datetime) (now ref : datetime)
    (shift : shift_domain) (lc : option string) (idays : option Z)
    (it : string) (d : datetime) :
  In it non_legacy ->
  next_due_from strptime now ref shift lc idays (Some it) = Ok d ->
  dt_ltb ref d = true.
Proof.
  intros Hit H. unfold non_legacy in Hit. simpl in Hit.
  pose proof (Z.mod_pos_bound (dom_first_day shift - weekday ref) 7 ltac:(lia)) as Hf.
  pose proof (Z.mod_pos_bound (dom_last_day shift - weekday ref) 7 ltac:(lia)) as Hl.
  destruct Hit as [<- | [<- | [<- | [<- | []]]]];
    unfold next_due_from, type_is in H; simpl String.eqb in H; cbv iota zeta in H.
  - inv_bind H. destruct a as [c | ].
    + inversion H; subst. eapply scan_shift_days_after; eassumption.
    + eapply fallback_after; eassumption.
  - eapply weekly_candidate_after; [ | eassumption]. lia.
  - inv_bind H. destruct a as [c | ].
    + inversion H; subst. eapply scan_shift_days_after; eassumption.
    + inv_bind H. eapply fallback_after; eassumption.
  - eapply weekly_candidate_after; [ | eassumption]. lia.
Qed.

Lemma weekly_candidate_returns (ref : datetime) (k h m : Z) :
  0 <= k <= 6 -> 1 <= date_of ref -> date_of ref + 14 <= MAXORDINAL ->
  returns (shifted <- add_days ref k ;;
           let candidate := replace_hm shifted h m in
           if dt_leb candidate ref then add_days candidate 7 else Ok candidate).
Proof.
  intros Hk R1 R2. rewrite add_days_in_range by lia. simpl.
  destruct (dt_leb _ ref); [ | apply returns_Ok].
  rewrite add_days_in_range by (simpl; lia). apply returns_Ok.
Qed.

Lemma fallback_returns (ref : datetime) (k h m : Z) :
  1 <= date_of ref -> date_of ref + 14 <= MAXORDINAL ->
  returns (shifted <- add_days ref (if k mod 7 =? 0 then 7 else k mod 7) ;;
           Ok (replace_hm shifted h m)).
Proof.
  intros R1 R2. pose proof (mod7_or_7_range k).
  rewrite add_days_in_range by lia. apply returns_Ok.
Qed.

Lemma range_1_8_in_range (ref : datetime) :
  1 <= date_of ref -> date_of ref + 14 <= MAXORDINAL ->
  Forall (fun i => 1 <= date_of ref + i <= MAXORDINAL) range_1_8.
Proof.
  intros R1 R2. unfold range_1_8. repeat constructor; lia.
Qed.

Lemma next_due_from_returns
    (strptime : string -> string -> option datetime) (now ref : datetime)
    (shift : shift_domain) (lc : option string) (idays : option Z) (it : string) :
  In it non_legacy ->
  dom_days shift <> [] ->
  1 <= date_of ref -> date_of ref + 14 <= MAXORDINAL ->
  returns (next_due_from strptime now ref shift lc idays (Some it)).
Proof.
  intros Hit Hne R1 R2. unfold non_legacy in Hit. simpl in Hit.
  pose proof (Z.mod_pos_bound (dom_first_day shift - weekday ref) 7 ltac:(lia)) as Hf.
  pose proof (Z.mod_pos_bound (dom_last_day shift - weekday ref) 7 ltac:(lia)) as Hl.
  destruct Hit as [<- | [<- | [<- | [<- | []]]]];
    unfold next_due_from, type_is; simpl String.eqb; cbv iota zeta.
  - destruct (scan_shift_days_returns (dom_days shift) ref (dom_start shift) range_1_8
                (range_1_8_in_range ref R1 R2)) as [[c | ] ->]; simpl.
    + apply returns_Ok.
    + apply fallback_returns; assumption.
  - apply weekly_candidate_returns; [lia | assumption | assumption].
  - destruct (scan_shift_days_returns (dom_days shift) ref (dom_end shift) range_1_8
                (range_1_8_in_range ref R1 R2)) as [[c | ] ->]; simpl.
    + apply returns_Ok.
    + destruct (dom_days shift) as [ | d0 rest]; [congruence | ]. simpl.
      apply fallback_returns; assumption.
  - apply weekly_candidate_returns; [lia | assumption | assumption].
Qed.

Lemma split_not_nil (sep : ascii) (s : string) : split sep s <> [].
Proof.
  destruct s as [ | c rest]; simpl; [discriminate | ].
  destruct (Ascii.eqb c sep); [discriminate | ].
  destruct (split sep rest); discriminate.
Qed.

Lemma mapM_not_nil {A B : Type} (f : A -> result B) (l : list A) (bs : list B) :
  l <> [] -> mapM f l = Ok bs -> bs <> [].
Proof.
  destruct l as [ | a rest]; [congruence | ]. intros _ H. simpl in H.
  inv_bind H. inv_bind H. inversion H. discriminate.
Qed.

Lemma decode_days_not_nil (row : shift_row) (days : list Z) :
  decode_days row = Ok days -> days <> [].
Proof.
  unfold decode_days. apply mapM_not_nil. apply split_not_nil.
Qed.

Lemma WEEK_IDX_range (d : string) (i : Z) : WEEK_IDX d = Ok i -> 0 <= i < 7.
Proof.
  unfold WEEK_IDX.
  repeat match goal with
  | |- context [String.eqb d ?s] => destruct (String.eqb d s)
  end; intro H; inversion H; lia.
Qed.

Lemma mapM_Forall {A B : Type} (f : A -> result B) (P : B -> Prop) :
  (forall a b, f a = Ok b -> P b) ->
  forall (l : list A) (bs : list B), mapM f l = Ok bs -> Forall P bs.
Proof.
  intros Hf. induction l as [ | a rest IH]; simpl; intros bs H.
  - inversion H. constructor.
  - inv_bind H. inv_bind H. inversion H; subst.
    constructor; [eapply Hf; eassumption | apply IH; assumption].
Qed.

Lemma decode_days_range (row : shift_row) (days : list Z) :
  decode_days row = Ok days -> Forall (fun d => 0 <= d < 7) days.
Proof.
  unfold decode_days. apply mapM_Forall. exact WEEK_IDX_range.
Qed.

Lemma resolve_shift_days
    (strptime : string -> string -> option datetime) (db : list shift_row)
    (ashift : option string) (shift : shift_domain) :
  resolve_shift strptime db ashift = Ok shift ->
  dom_days shift <> [] /\ Forall (fun d => 0 <= d < 7) (dom_days shift).
Proof.
  unfold resolve_shift. destruct (assigned_row db ashift) as [row | ]; intro H.
  - inv_bind H. inv_bind H. inv_bind H. inv_bind H. inv_bind H.
    inversion H; subst; simpl.
    split; [eapply decode_days_not_nil | eapply decode_days_range]; eassumption.
  - inversion H; subst; simpl. split; [discriminate | ].
    repeat constructor; lia.
Qed.

(** C1. For each of the four interval types that are not legacy, every due
    instant [calculate_next_due] returns is strictly after the reference
    instant (the parsed [last_completed], else [now]): this holds for every
    shift the dispatch can be run on, so also on the fallback branches of the
    two daily types, and for every assigned shift, also an absent or
    unknown one. The call does return when the active row matched by the
    assigned shift decodes and the reference date leaves fourteen days
    before the last date of the calendar. *)
Theorem next_due_after_reference
    (strptime : string -> string -> option datetime) (db : list shift_row)
    (now : datetime) (lc : option string) (idays : option Z)
    (it : string) (ashift : option string) :
  In it non_legacy ->
  (forall (shift : shift_domain) (d : datetime),
      next_due_from strptime now (reference_time strptime now lc) shift lc idays (Some it)
        = Ok d ->
      dt_ltb (reference_time strptime now lc) d = true)
  /\ (forall d : datetime,
        calculate_next_due strptime db now lc idays (Some it) ashift = Ok d ->
        dt_ltb (reference_time strptime now lc) d = true)
  /\ (returns (resolve_shift strptime db ashift) ->
      1 <= date_of (reference_time strptime now lc) ->
      date_of (reference_time strptime now lc) + 14 <= MAXORDINAL ->
      exists d : datetime,
        calculate_next_due strptime db now lc idays (Some it) ashift = Ok d
        /\ dt_ltb (reference_time strptime now lc) d = true).
Proof.
  intro Hit.
  assert (Hfrom : forall shift d,
             next_due_from strptime now (reference_time strptime now lc) shift lc idays
               (Some it) = Ok d ->
             dt_ltb (reference_time strptime now lc) d = true).
  { intros shift d H. eapply next_due_from_after; eassumption. }
  split; [exact Hfrom | ]. split.
  - intros d H. unfold calculate_next_due in H. inv_bind H.
    eapply Hfrom. eassumption.
  - intros [shift Hshift] R1 R2. unfold calculate_next_due. rewrite Hshift. simpl.
    destruct (resolve_shift_days _ _ _ _ Hshift) as [Hne _].
    destruct (next_due_from_returns strptime now (reference_time strptime now lc)
                shift lc idays it Hit Hne R1 R2) as [d Hd].
    exists d. split; [exact Hd | ]. eapply Hfrom. exact Hd.
Qed.

Lemma next_due_after_reference_witness :
  calculate_next_due strptime_digits default_shifts (at_time fri 23 0)
    (Some "2024-01-05 22:10:00"%string) (Some 1) (Some "end_shift_daily"%string)
    (Some "B"%string) = Ok (at_time mon 3 30)
  /\ dt_ltb (at_time fri 22 10) (at_time mon 3 30) = true
  /\ exists d,
       calculate_next_due strptime_digits default_shifts (at_time fri 23 0)
         None (Some 1) (Some "end_shift_daily"%string) None = Ok d
       /\ dt_ltb (at_time fri 23 0) d = true.
Proof.
  assert (Hit : In "end_shift_daily"%string non_legacy).
  { unfold non_legacy. simpl. tauto. }
  split; [reflexivity | ]. split.
  - destruct (next_due_after_reference strptime_digits default_shifts (at_time fri 23 0)
                (Some "2024-01-05 22:10:00"%string) (Some 1) "end_shift_daily"
                (Some "B"%string) Hit) as (_ & Hcalc & _).
    apply (Hcalc (at_time mon 3 30)). reflexivity.
  - destruct (next_due_after_reference strptime_digits default_shifts (at_time fri 23 0)
                None (Some 1) "end_shift_daily" None Hit) as (_ & _ & Hret).
    apply Hret.
    + apply returns_Ok.
    + vm_compute. discriminate.
    + vm_compute. discriminate.
Defined.

(** C7. In the [end_shift_daily] branch, when the scan of the seven offsets
    yields no candidate, the due instant is the reference moved forward by
    [(d0 - refWeekday) mod 7] days, seven when that is zero, at the end time,
    [d0] being the first element of the list of active days in its stored
    order; the [start_shift_daily] fallback uses the minimum [first_day]
    instead. *)
Theorem end_shift_daily_fallback
    (strptime : string -> string -> option datetime) (now ref : datetime)
    (shift : shift_domain) (lc : option string) (idays : option Z) (d0 : Z) :
  nth_error (dom_days shift) 0 = Some d0 ->
  1 <= date_of ref -> date_of ref + 7 <= MAXORDINAL ->
  (scan_shift_days (dom_days shift) ref (dom_end shift) range_1_8 = Ok None ->
   next_due_from strptime now ref shift lc idays (Some "end_shift_daily"%string)
   = Ok (mk_datetime
           (date_of ref +
            (if (d0 - weekday ref) mod 7 =? 0 then 7 else (d0 - weekday ref) mod 7))
           (mk_time (hour (dom_end shift)) (minute (dom_end shift)) 0 0)))
  /\ (scan_shift_days (dom_days shift) ref (dom_start shift) range_1_8 = Ok None ->
      next_due_from strptime now ref shift lc idays (Some "start_shift_daily"%string)
      = Ok (mk_datetime
              (date_of ref +
               (if (dom_first_day shift - weekday ref) mod 7 =? 0 then 7
                else (dom_first_day shift - weekday ref) mod 7))
              (mk_time (hour (dom_start shift)) (minute (dom_start shift)) 0 0))).
Proof.
  intros Hd0 R1 R2. split; intro Hscan.
  - unfold next_due_from, type_is. simpl String.eqb. cbv iota zeta.
    rewrite Hscan. simpl bind. unfold item. rewrite Hd0. simpl bind.
    pose proof (mod7_or_7_range (d0 - weekday ref)).
    rewrite add_days_in_range by lia. reflexivity.
  - unfold next_due_from, type_is. simpl String.eqb. cbv iota zeta.
    rewrite Hscan. simpl bind.
    pose proof (mod7_or_7_range (dom_first_day shift - weekday ref)).
    rewrite add_days_in_range by lia. reflexivity.
Qed.

Lemma end_shift_daily_fallback_witness :
  next_due_from strptime_digits (at_time fri 23 0) (at_time fri 23 0)
    (mk_shift_domain [9; 8] 8 9 (hm 17 0) (hm 5 0)) None (Some 1)
    (Some "end_shift_daily"%string) = Ok (at_time (fri + 5) 5 0)
  /\ next_due_from strptime_digits (at_time fri 23 0) (at_time fri 23 0)
       (mk_shift_domain [9; 8] 8 9 (hm 17 0) (hm 5 0)) None (Some 1)
       (Some "start_shift_daily"%string) = Ok (at_time (fri + 4) 17 0).
Proof.
  destruct (end_shift_daily_fallback strptime_digits (at_time fri 23 0) (at_time fri 23 0)
              (mk_shift_domain [9; 8] 8 9 (hm 17 0) (hm 5 0)) None (Some 1) 9)
    as [Hend Hstart].
  - reflexivity.
  - vm_compute. discriminate.
  - vm_compute. discriminate.
  - split.
    + rewrite Hend by reflexivity. reflexivity.
    + rewrite Hstart by reflexivity. reflexivity.
Defined.

(** ** Totality *)



Lemma reference_time_unparseable
    (strptime : string -> string -> option datetime) (now : datetime) (s : string) :
  parse_completed strptime s = None -> reference_time strptime now (Some s) = now.
Proof.
  intro H. unfold reference_time. rewrite H. now destruct (truthy (Some s)).
Qed.

Lemma reference_time_parsed
    (strptime : string -> string -> option datetime) (now : datetime) (s : string)
    (dt : datetime) :
  truthy (Some s) = true -> parse_completed strptime s = Some dt ->
  reference_time strptime now (Some s) = dt.
Proof.
  intros Ht H. unfold reference_time. now rewrite Ht, H.
Qed.


Lemma resolve_shift_returns
    (strptime : string -> string -> option datetime) (db : list shift_row)
    (ashift : option string) :
  (forall row, assigned_row db ashift = Some row -> well_formed_row strptime row) ->
  returns (resolve_shift strptime db ashift).
Proof.
  intro Hwf. unfold resolve_shift.
  destruct (assigned_row db ashift) as [row | ]; [ | apply returns_Ok].
  destruct (Hwf row eq_refl) as ([days Hdays] & [st Hst] & [et Het]).
  rewrite Hdays. simpl bind.
  pose proof (decode_days_not_nil _ _ Hdays) as Hne.
  destruct days as [ | d rest]; [congruence | ].
  simpl. rewrite Hst, Het. simpl. apply returns_Ok.
Qed.





(** A shift imported without its list of active days is stored with [''],
    and [calculate_next_due] for a task assigned to it raises [KeyError]. *)
Lemma malformed_shift_configuration_raises :
  ~ (forall (strptime : string -> string -> option datetime) (db : list shift_row)
            (now : datetime) (lc : option string) (idays : option Z)
            (it ashift : option string),
        returns (calculate_next_due strptime db now lc idays it ashift)).
Proof.
  intro H.
  destruct (H strptime_digits (imported_shift :: default_shifts) (at_time fri 23 0)
              None (Some 1) (Some "start_shift_daily"%string) (Some "E"%string))
    as [d Hd].
  vm_compute in Hd. discriminate Hd.
Qed.


(** ** ShiftCalendar *)






(** * Further properties of the scheduler *)

(** ** Occurrences and shift weeks *)

Lemma get_shift_date_for_time_raises (days : list Z) (st et : time) (dt : datetime)
    (e : exn) :
  get_shift_date_for_time days st et dt = Raise e -> e = OverflowError.
Proof.
  unfold get_shift_date_for_time, sub_days, add_days.
  destruct (negb (z_in (weekday dt) days)); [discriminate | ].
  destruct (time_ltb et st).
  - destruct (time_leb st (time_of dt)); [discriminate | ].
    destruct ((1 <=? date_of dt + - (1)) && (date_of dt + - (1) <=? MAXORDINAL));
      simpl; intro H; [discriminate | now inversion H].
  - destruct (time_leb st (time_of dt) && time_ltb (time_of dt) et); discriminate.
Qed.

(** X1. [is_same_shift_occurrence] does not depend on which of the two
    instants is the completion and which the current time. *)
Theorem same_occurrence_symmetric (c n : datetime) (days : list Z) (st et : time) :
  is_same_shift_occurrence c n days st et = is_same_shift_occurrence n c days st et.
Proof.
  unfold is_same_shift_occurrence.
  destruct (get_shift_date_for_time days st et c) as [dc | ec] eqn:Hc;
    destruct (get_shift_date_for_time days st et n) as [dn | en] eqn:Hn; simpl.
  - destruct dc as [a | ], dn as [b | ]; try reflexivity.
    now rewrite Z.eqb_sym.
  - reflexivity.
  - reflexivity.
  - apply get_shift_date_for_time_raises in Hc, Hn. now subst.
Qed.

(** X2. An instant is in the same occurrence as itself exactly when its
    weekday is active and, for a shift that is not overnight, its time lies
    in [[start, end)]; for an overnight shift every time of an active day
    qualifies, also one between the end and the start. *)
Theorem same_occurrence_reflexive_iff (t : datetime) (days : list Z) (st et : time) :
  1 < date_of t <= MAXORDINAL ->
  (is_same_shift_occurrence t t days st et = Ok true <->
   z_in (weekday t) days = true
   /\ (time_ltb et st = true
       \/ (time_leb st (time_of t) = true /\ time_ltb (time_of t) et = true))).
Proof.
  intro R. unfold is_same_shift_occurrence.
  rewrite get_shift_date_for_time_spec by exact R. simpl.
  unfold shiftDateOf, isOvernight.
  destruct (z_in (weekday t) days); simpl.
  - destruct (time_ltb et st).
    + destruct (time_leb st (time_of t)); rewrite Z.eqb_refl; split; auto.
    + destruct (time_leb st (time_of t)), (time_ltb (time_of t) et); simpl;
        try rewrite Z.eqb_refl; split; auto;
        try discriminate; intros [_ [H | [H1 H2]]]; discriminate.
  - split; [discriminate | intros [H _]; discriminate].
Qed.

Lemma same_occurrence_reflexive_iff_witness :
  is_same_shift_occurrence (at_time fri 10 0) (at_time fri 10 0) [4] (hm 17 0) (hm 5 0)
  = Ok true.
Proof.
  apply same_occurrence_reflexive_iff.
  - vm_compute. split; [reflexivity | discriminate].
  - split; [reflexivity | left; reflexivity].
Defined.

Lemma fold_left_min_range (l : list Z) (x lo hi : Z) :
  lo <= x < hi -> Forall (fun d => lo <= d < hi) l ->
  lo <= fold_left Z.min l x < hi.
Proof.
  revert x. induction l as [ | d rest IH]; simpl; intros x Hx Hall; [exact Hx | ].
  inversion Hall; subst. apply IH; [lia | assumption].
Qed.

Lemma firstActiveDay_range (days : list Z) :
  days <> [] -> Forall (fun d => 0 <= d < 7) days -> 0 <= firstActiveDay days < 7.
Proof.
  destruct days as [ | d rest]; [congruence | ]. intros _ Hall.
  inversion Hall; subst. unfold firstActiveDay. simpl.
  apply fold_left_min_range; assumption.
Qed.

(** X3. The week start [get_shift_week_start] returns falls on the first
    active weekday, and lies at most six days before the date of the
    instant, or exactly seven days before it when the instant is on the
    first active day of an overnight shift before its start time. *)
Theorem week_start_on_first_active_day (days : list Z) (st et : time) (dt : datetime) :
  days <> [] ->
  Forall (fun d => 0 <= d < 7) days ->
  14 <= date_of dt <= MAXORDINAL ->
  exists ws : date,
    get_shift_week_start days st et dt = Ok ws
    /\ (ws + 6) mod 7 = firstActiveDay days
    /\ date_of dt - 7 <= ws <= date_of dt
    /\ (ws = date_of dt - 7 <->
        weekday dt = firstActiveDay days /\ time_ltb et st = true
        /\ time_ltb (time_of dt) st = true).
Proof.
  intros Hne Hall R.
  rewrite get_shift_week_start_spec by assumption.
  eexists. split; [reflexivity | ].
  pose proof (firstActiveDay_range days Hne Hall) as Hf.
  unfold weekStartOf, isOvernight. set (f := firstActiveDay days) in *.
  pose proof (Z.mod_pos_bound (weekday dt - f) 7 ltac:(lia)) as Hk.
  assert (Hwd : 0 <= weekday dt < 7) by (apply Z.mod_pos_bound; lia).
  assert (Hmod : (date_of dt - (weekday dt - f) mod 7 + 6) mod 7 = f).
  { unfold weekday in *. set (o := date_of dt) in *.
    replace (o - ((o + 6) mod 7 - f) mod 7 + 6)
      with ((o + 6) - ((o + 6) mod 7 - f) mod 7) by lia.
    rewrite Zminus_mod, Zmod_mod, <- Zminus_mod.
    replace (o + 6 - ((o + 6) mod 7 - f)) with (f + ((o + 6) - (o + 6) mod 7)) by lia.
    rewrite (Z.div_mod (o + 6) 7) at 1 by lia.
    replace (f + (7 * ((o + 6) / 7) + (o + 6) mod 7 - (o + 6) mod 7))
      with (f + ((o + 6) / 7) * 7) by lia.
    rewrite Z.mod_add by lia. apply Z.mod_small. exact Hf. }
  destruct (Z.eqb_spec (weekday dt) f) as [Ewd | Ewd]; simpl.
  - assert (Hk0 : (weekday dt - f) mod 7 = 0).
    { rewrite Ewd, Z.sub_diag. reflexivity. }
    destruct (time_ltb et st); simpl.
    + destruct (time_ltb (time_of dt) st).
      * split; [ | split; [lia | ] ].
        -- replace (date_of dt - (weekday dt - f) mod 7 - 7 + 6)
             with (date_of dt - (weekday dt - f) mod 7 + 6 + (-1) * 7) by lia.
           rewrite Z.mod_add by lia. exact Hmod.
        -- split; [auto | lia].
      * split; [exact Hmod | ]. split; [lia | ].
        split; [lia | intros (_ & _ & H); discriminate].
    + split; [exact Hmod | ]. split; [lia | ].
      split; [lia | intros (_ & H & _); discriminate].
  - split; [exact Hmod | ]. split; [lia | ].
    split; [ | intros (H & _); contradiction].
    intro H. exfalso.
    assert ((weekday dt - f) mod 7 = 7) by lia. lia.
Qed.

Lemma week_start_on_first_active_day_witness :
  exists ws : date,
    get_shift_week_start [3; 0; 1] (hm 16 30) (hm 3 30) (at_time mon 2 0) = Ok ws
    /\ (ws + 6) mod 7 = 0.
Proof.
  destruct (week_start_on_first_active_day [3; 0; 1] (hm 16 30) (hm 3 30)
              (at_time mon 2 0)) as (ws & Hws & Hday & _).
  - discriminate.
  - repeat constructor; lia.
  - vm_compute. split; discriminate.
  - exists ws. split; [exact Hws | exact Hday].
Defined.

Lemma is_same_shift_week_eqb (c n : datetime) (days : list Z) (st et : time) :
  days <> [] ->
  14 <= date_of c <= MAXORDINAL -> 14 <= date_of n <= MAXORDINAL ->
  is_same_shift_week c n days st et
  = Ok (weekStartOf days st et c =? weekStartOf days st et n).
Proof.
  intros Hne Rc Rn. unfold is_same_shift_week.
  rewrite !get_shift_week_start_spec by assumption. reflexivity.
Qed.

(** X4. On a non-empty list of active days, being in the same shift week is
    an equivalence between instants: reflexive, symmetric and transitive. *)
Theorem same_shift_week_equivalence (days : list Z) (st et : time) (a b c : datetime) :
  days <> [] ->
  14 <= date_of a <= MAXORDINAL ->
  14 <= date_of b <= MAXORDINAL ->
  14 <= date_of c <= MAXORDINAL ->
  is_same_shift_week a a days st et = Ok true
  /\ is_same_shift_week a b days st et = is_same_shift_week b a days st et
  /\ (is_same_shift_week a b days st et = Ok true ->
      is_same_shift_week b c days st et = Ok true ->
      is_same_shift_week a c days st et = Ok true).
Proof.
  intros Hne Ra Rb Rc.
  rewrite !is_same_shift_week_eqb by assumption.
  split; [now rewrite Z.eqb_refl | ].
  split; [now rewrite Z.eqb_sym | ].
  intros Hab Hbc. inversion Hab as [Eab]. inversion Hbc as [Ebc].
  apply Z.eqb_eq in Eab, Ebc. rewrite Eab, Ebc, !Z.eqb_refl. reflexivity.
Qed.

Lemma same_shift_week_equivalence_witness :
  is_same_shift_week (at_time mon 17 0) (at_time (mon + 7) 2 0) [0; 1; 2; 3]
    (hm 16 30) (hm 3 30) = Ok true.
Proof.
  destruct (same_shift_week_equivalence [0; 1; 2; 3] (hm 16 30) (hm 3 30)
              (at_time mon 17 0) (at_time (mon + 3) 1 0) (at_time (mon + 7) 2 0))
    as (_ & _ & Htrans).
  - discriminate.
  - vm_compute. split; discriminate.
  - vm_compute. split; discriminate.
  - vm_compute. split; discriminate.
  - apply Htrans; reflexivity.
Defined.

Lemma weekStartOf_bounds (days : list Z) (st et : time) (dt : datetime) :
  date_of dt - 7 <= weekStartOf days st et dt <= date_of dt
  /\ (isOvernight st et = false -> date_of dt - 6 <= weekStartOf days st et dt).
Proof.
  unfold weekStartOf.
  pose proof (Z.mod_pos_bound (weekday dt - firstActiveDay days) 7 ltac:(lia)) as Hk.
  destruct (Z.eqb_spec (weekday dt) (firstActiveDay days)) as [E | E]; simpl.
  - rewrite E, Z.sub_diag in *. change (0 mod 7) with 0 in *.
    destruct (isOvernight st et); simpl.
    + destruct (time_ltb (time_of dt) st); split; try lia; discriminate.
    + split; [lia | intros _; lia].
  - split; [lia | intros _; lia].
Qed.

(** X5. Two instants in the same shift week are at most seven days apart,
    and at most six when the shift is not overnight: an older completion
    never counts for the current week. *)
Theorem same_shift_week_close (c n : datetime) (days : list Z) (st et : time) :
  days <> [] ->
  14 <= date_of c <= MAXORDINAL -> 14 <= date_of n <= MAXORDINAL ->
  is_same_shift_week c n days st et = Ok true ->
  Z.abs (date_of c - date_of n) <= 7
  /\ (time_ltb et st = false -> Z.abs (date_of c - date_of n) <= 6).
Proof.
  intros Hne Rc Rn H. rewrite is_same_shift_week_eqb in H by assumption.
  inversion H as [E]. apply Z.eqb_eq in E.
  destruct (weekStartOf_bounds days st et c) as [Bc Bc'].
  destruct (weekStartOf_bounds days st et n) as [Bn Bn'].
  split; [lia | ]. intro Hov. specialize (Bc' Hov). specialize (Bn' Hov). lia.
Qed.

Lemma same_shift_week_close_witness :
  Z.abs (date_of (at_time mon 17 0) - date_of (at_time (mon + 7) 2 0)) <= 7.
Proof.
  apply (same_shift_week_close (at_time mon 17 0) (at_time (mon + 7) 2 0) [0; 1; 2; 3]
           (hm 16 30) (hm 3 30)).
  - discriminate.
  - vm_compute. split; discriminate.
  - vm_compute. split; discriminate.
  - reflexivity.
Defined.

(** ** Due dates *)

Lemma scan_shift_days_find (days : list Z) (ref : datetime) (t : time)
    (offsets : list Z) :
  Forall (fun i => 1 <= i /\ date_of ref + i <= MAXORDINAL) offsets ->
  1 <= date_of ref ->
  scan_shift_days days ref t offsets
  = Ok (option_map (fun i => due_at ref i t)
          (find (fun i => z_in ((weekday ref + i) mod 7) days) offsets)).
Proof.
  intros Hall R. induction Hall as [ | i rest [Hi Hmax] _ IH]; simpl; [reflexivity | ].
  destruct (z_in ((weekday ref + i) mod 7) days); [ | exact IH].
  rewrite add_days_in_range by lia. simpl.
  rewrite dt_ltb_of_date_lt by (simpl; lia). reflexivity.
Qed.

Lemma find_range_1_8_least (f : Z -> bool) (i : Z) :
  find f range_1_8 = Some i ->
  1 <= i <= 7 /\ f i = true /\ forall j, 1 <= j < i -> f j = false.
Proof.
  unfold range_1_8. simpl.
  destruct (f 1) eqn:F1; [intro H; inversion H; subst | ].
  { split; [lia | split; [assumption | ] ]. intros; lia. }
  destruct (f 2) eqn:F2; [intro H; inversion H; subst | ].
  { split; [lia | split; [assumption | ] ]. intros j Hj.
    assert (j = 1) by lia. now subst. }
  destruct (f 3) eqn:F3; [intro H; inversion H; subst | ].
  { split; [lia | split; [assumption | ] ]. intros j Hj.
    assert (j = 1 \/ j = 2) as [-> | ->] by lia; assumption. }
  destruct (f 4) eqn:F4; [intro H; inversion H; subst | ].
  { split; [lia | split; [assumption | ] ]. intros j Hj.
    assert (j = 1 \/ j = 2 \/ j = 3) as [-> | [-> | ->]] by lia; assumption. }
  destruct (f 5) eqn:F5; [intro H; inversion H; subst | ].
  { split; [lia | split; [assumption | ] ]. intros j Hj.
    assert (j = 1 \/ j = 2 \/ j = 3 \/ j = 4) as [-> | [-> | [-> | ->]]] by lia;
      assumption. }
  destruct (f 6) eqn:F6; [intro H; inversion H; subst | ].
  { split; [lia | split; [assumption | ] ]. intros j Hj.
    assert (j = 1 \/ j = 2 \/ j = 3 \/ j = 4 \/ j = 5)
      as [-> | [-> | [-> | [-> | ->]]]] by lia; assumption. }
  destruct (f 7) eqn:F7; [intro H; inversion H; subst | discriminate].
  split; [lia | split; [assumption | ] ]. intros j Hj.
  assert (j = 1 \/ j = 2 \/ j = 3 \/ j = 4 \/ j = 5 \/ j = 6)
    as [-> | [-> | [-> | [-> | [-> | ->]]]]] by lia; assumption.
Qed.

Lemma weekday_due_at (ref : datetime) (i : Z) (t : time) :
  weekday (due_at ref i t) = (weekday ref + i) mod 7.
Proof.
  unfold weekday, due_at. simpl.
  rewrite Zplus_mod_idemp_l. f_equal. lia.
Qed.

(** X6. For the two daily interval types, on a shift whose configuration
    decodes, the due instant is on the first active weekday strictly after
    the date of the reference, at most seven days later, at the start time
    (or the end time) of the shift with seconds at zero; the time of day of
    the reference plays no role. *)
Theorem daily_due_is_next_active_day
    (strptime : string -> string -> option datetime) (db : list shift_row)
    (now : datetime) (lc : option string) (idays : option Z)
    (ashift : option string) (shift : shift_domain) :
  resolve_shift strptime db ashift = Ok shift ->
  1 <= date_of (reference_time strptime now lc) ->
  date_of (reference_time strptime now lc) + 7 <= MAXORDINAL ->
  exists i : Z,
    1 <= i <= 7
    /\ calculate_next_due strptime db now lc idays (Some "start_shift_daily"%string) ashift
       = Ok (due_at (reference_time strptime now lc) i (dom_start shift))
    /\ calculate_next_due strptime db now lc idays (Some "end_shift_daily"%string) ashift
       = Ok (due_at (reference_time strptime now lc) i (dom_end shift))
    /\ z_in (weekday (due_at (reference_time strptime now lc) i (dom_start shift)))
         (dom_days shift) = true
    /\ (forall j, 1 <= j < i ->
        z_in ((weekday (reference_time strptime now lc) + j) mod 7) (dom_days shift)
        = false).
Proof.
  intros Hshift R1 R2. set (ref := reference_time strptime now lc) in *.
  destruct (resolve_shift_days _ _ _ _ Hshift) as [Hne Hall].
  assert (Hoff : Forall (fun i => 1 <= i /\ date_of ref + i <= MAXORDINAL) range_1_8).
  { unfold range_1_8. repeat constructor; lia. }
  destruct (scan_shift_days_finds (dom_days shift) ref (dom_start shift) Hne Hall R1 R2)
    as [c Hc].
  pose proof (scan_shift_days_find (dom_days shift) ref (dom_start shift) range_1_8 Hoff R1)
    as Hs.
  pose proof (scan_shift_days_find (dom_days shift) ref (dom_end shift) range_1_8 Hoff R1)
    as He.
  destruct (find (fun i => z_in ((weekday ref + i) mod 7) (dom_days shift)) range_1_8)
    as [i | ] eqn:Hfind.
  - destruct (find_range_1_8_least _ _ Hfind) as (Hi & Hz & Hleast).
    exists i. split; [exact Hi | ].
    unfold calculate_next_due. rewrite Hshift. simpl bind. fold ref.
    unfold next_due_from, type_is. simpl String.eqb. cbv iota zeta.
    rewrite Hs, He. simpl.
    split; [reflexivity | ]. split; [reflexivity | ]. split.
    + rewrite weekday_due_at. exact Hz.
    + exact Hleast.
  - rewrite Hc in Hs. discriminate Hs.
Qed.

Lemma daily_due_is_next_active_day_witness :
  exists i : Z,
    1 <= i <= 7
    /\ calculate_next_due strptime_digits default_shifts (at_time fri 23 0)
         (Some "2024-01-05 22:10:00"%string) (Some 1) (Some "start_shift_daily"%string)
         (Some "B"%string)
       = Ok (due_at (at_time fri 22 10) i (hm 16 30)).
Proof.
  destruct (daily_due_is_next_active_day strptime_digits default_shifts (at_time fri 23 0)
              (Some "2024-01-05 22:10:00"%string) (Some 1) (Some "B"%string)
              (mk_shift_domain [0; 1; 2; 3] 0 3 (hm 16 30) (hm 3 30)))
    as (i & Hi & Hstart & _).
  - reflexivity.
  - vm_compute. discriminate.
  - vm_compute. discriminate.
  - exists i. split; [exact Hi | exact Hstart].
Defined.

Lemma dt_leb_of_date_lt (a b : datetime) : date_of a < date_of b -> dt_leb a b = true.
Proof.
  intro H. unfold dt_leb, dt_cmp. apply Z.compare_lt_iff in H. now rewrite H.
Qed.

Lemma weekly_candidate_spec (ref : datetime) (target h m : Z) :
  0 <= target < 7 ->
  1 <= date_of ref -> date_of ref + 13 <= MAXORDINAL ->
  exists d : datetime,
    (shifted <- add_days ref ((target - weekday ref) mod 7) ;;
     let candidate := replace_hm shifted h m in
     if dt_leb candidate ref then add_days candidate 7 else Ok candidate) = Ok d
    /\ weekday d = target
    /\ time_of d = mk_time h m 0 0
    /\ dt_ltb ref d = true
    /\ dt_leb (mk_datetime (date_of d - 7) (time_of d)) ref = true.
Proof.
  intros Ht R1 R2.
  pose proof (Z.mod_pos_bound (target - weekday ref) 7 ltac:(lia)) as Hk.
  set (k := (target - weekday ref) mod 7) in *.
  assert (Hwd : (date_of ref + k + 6) mod 7 = target).
  { unfold k, weekday.
    replace (date_of ref + (target - (date_of ref + 6) mod 7) mod 7 + 6)
      with ((date_of ref + 6) + (target - (date_of ref + 6) mod 7) mod 7) by lia.
    rewrite Zplus_mod_idemp_r.
    replace (date_of ref + 6 + (target - (date_of ref + 6) mod 7))
      with (target + ((date_of ref + 6) - (date_of ref + 6) mod 7)) by lia.
    rewrite (Z.div_mod (date_of ref + 6) 7) at 1 by lia.
    replace (target + (7 * ((date_of ref + 6) / 7) + (date_of ref + 6) mod 7
                       - (date_of ref + 6) mod 7))
      with (target + ((date_of ref + 6) / 7) * 7) by lia.
    rewrite Z.mod_add by lia. apply Z.mod_small. exact Ht. }
  rewrite add_days_in_range by lia. simpl bind. cbv zeta.
  destruct (dt_leb (replace_hm (mk_datetime (date_of ref + k) (time_of ref)) h m) ref)
    eqn:Hle.
  - rewrite add_days_in_range by (simpl; lia). simpl.
    eexists. split; [reflexivity | ]. unfold weekday. simpl.
    split.
    { replace (date_of ref + k + 7 + 6) with (date_of ref + k + 6 + 1 * 7) by lia.
      rewrite Z.mod_add by lia. exact Hwd. }
    split; [reflexivity | ]. split.
    + apply dt_ltb_of_date_lt. simpl. lia.
    + replace (date_of ref + k + 7 - 7) with (date_of ref + k) by lia. exact Hle.
  - eexists. split; [reflexivity | ]. unfold weekday. simpl.
    split; [exact Hwd | ]. split; [reflexivity | ]. split.
    + apply dt_leb_false_ltb. exact Hle.
    + apply dt_leb_of_date_lt. simpl. lia.
Qed.

Lemma fold_left_min_spec (l : list Z) (x : Z) :
  In (fold_left Z.min l x) (x :: l)
  /\ forall d, In d (x :: l) -> fold_left Z.min l x <= d.
Proof.
  revert x. induction l as [ | y rest IH]; simpl; intro x.
  - split; [left; reflexivity | intros d [<- | []]; lia].
  - destruct (IH (Z.min x y)) as [Hin Hle]. split.
    + destruct Hin as [E | Hin]; [ | right; right; exact Hin].
      rewrite <- E. destruct (Z.min_spec x y) as [[_ ->] | [_ ->]]; auto.
    + intros d Hd.
      assert (Hm : fold_left Z.min rest (Z.min x y) <= Z.min x y)
        by (apply Hle; left; reflexivity).
      destruct Hd as [<- | [<- | Hd]]; [lia | lia | ].
      apply Hle. right. exact Hd.
Qed.

Lemma fold_left_max_spec (l : list Z) (x : Z) :
  In (fold_left Z.max l x) (x :: l)
  /\ forall d, In d (x :: l) -> d <= fold_left Z.max l x.
Proof.
  revert x. induction l as [ | y rest IH]; simpl; intro x.
  - split; [left; reflexivity | intros d [<- | []]; lia].
  - destruct (IH (Z.max x y)) as [Hin Hle]. split.
    + destruct Hin as [E | Hin]; [ | right; right; exact Hin].
      rewrite <- E. destruct (Z.max_spec x y) as [[_ ->] | [_ ->]]; auto.
    + intros d Hd.
      assert (Hm : Z.max x y <= fold_left Z.max rest (Z.max x y))
        by (apply Hle; left; reflexivity).
      destruct Hd as [<- | [<- | Hd]]; [lia | lia | ].
      apply Hle. right. exact Hd.
Qed.

Lemma resolve_shift_first_last_range
    (strptime : string -> string -> option datetime) (db : list shift_row)
    (ashift : option string) (shift : shift_domain) :
  resolve_shift strptime db ashift = Ok shift ->
  0 <= dom_first_day shift < 7 /\ 0 <= dom_last_day shift < 7.
Proof.
  intro H. unfold resolve_shift in H.
  destruct (assigned_row db ashift) as [row | ].
  - inv_bind H. pose proof (decode_days_range _ _ Ha) as Hall.
    destruct a as [ | d0 rest]; [discriminate H | ].
    simpl in H. inv_bind H. inv_bind H. inversion H; subst; simpl.
    rewrite Forall_forall in Hall.
    destruct (fold_left_min_spec rest d0) as [Hmin _].
    destruct (fold_left_max_spec rest d0) as [Hmax _].
    split; apply Hall; assumption.
  - inversion H; subst; simpl. lia.
Qed.

(** X7. The shift [calculate_next_due] schedules against, whenever it is
    resolved, has at least one active day, only weekday indices 0..6, and
    its first and last day are the least and the greatest of its days. *)
Theorem resolve_shift_invariants
    (strptime : string -> string -> option datetime) (db : list shift_row)
    (ashift : option string) (shift : shift_domain) :
  resolve_shift strptime db ashift = Ok shift ->
  dom_days shift <> []
  /\ Forall (fun d => 0 <= d < 7) (dom_days shift)
  /\ In (dom_first_day shift) (dom_days shift)
  /\ In (dom_last_day shift) (dom_days shift)
  /\ (forall d, In d (dom_days shift) -> dom_first_day shift <= d <= dom_last_day shift).
Proof.
  intro H. destruct (resolve_shift_days _ _ _ _ H) as [Hne Hall].
  split; [exact Hne | ]. split; [exact Hall | ].
  unfold resolve_shift in H.
  destruct (assigned_row db ashift) as [row | ].
  - inv_bind H. destruct a as [ | d0 rest]; [discriminate H | ].
    simpl in H. inv_bind H. inv_bind H. inversion H; subst; simpl.
    destruct (fold_left_min_spec rest d0) as [Hmin Hle].
    destruct (fold_left_max_spec rest d0) as [Hmax Hge].
    split; [exact Hmin | ]. split; [exact Hmax | ].
    intros d Hd. split; [apply Hle | apply Hge]; exact Hd.
  - inversion H; subst; simpl.
    split; [tauto | ]. split; [tauto | ]. intros d Hd. intuition lia.
Qed.

Lemma resolve_shift_invariants_witness :
  exists shift : shift_domain,
    resolve_shift strptime_digits default_shifts (Some "D"%string) = Ok shift
    /\ In (dom_first_day shift) (dom_days shift)
    /\ In (dom_last_day shift) (dom_days shift).
Proof.
  exists (mk_shift_domain [4; 5; 6] 4 6 (hm 17 0) (hm 5 0)).
  destruct (resolve_shift_invariants strptime_digits default_shifts (Some "D"%string)
              (mk_shift_domain [4; 5; 6] 4 6 (hm 17 0) (hm 5 0)))
    as (_ & _ & Hfirst & Hlast & _).
  - reflexivity.
  - split; [reflexivity | ]. split; [exact Hfirst | exact Hlast].
Defined.

(** X8. For the two weekly interval types, on a shift whose configuration
    decodes, the due instant is the next start of the first active day (or
    end of the last active day) strictly after the reference: it falls on
    that weekday at that time, it is after the reference, and the same
    instant one week earlier is not. *)
Theorem weekly_due_is_next_first_day
    (strptime : string -> string -> option datetime) (db : list shift_row)
    (now : datetime) (lc : option string) (idays : option Z)
    (ashift : option string) (shift : shift_domain) :
  resolve_shift strptime db ashift = Ok shift ->
  1 <= date_of (reference_time strptime now lc) ->
  date_of (reference_time strptime now lc) + 13 <= MAXORDINAL ->
  (exists d : datetime,
      calculate_next_due strptime db now lc idays (Some "start_shift_weekly"%string) ashift
      = Ok d
      /\ weekday d = dom_first_day shift
      /\ time_of d = mk_time (hour (dom_start shift)) (minute (dom_start shift)) 0 0
      /\ dt_ltb (reference_time strptime now lc) d = true
      /\ dt_leb (mk_datetime (date_of d - 7) (time_of d))
           (reference_time strptime now lc) = true)
  /\ (exists d : datetime,
        calculate_next_due strptime db now lc idays (Some "end_shift_weekly"%string) ashift
        = Ok d
        /\ weekday d = dom_last_day shift
        /\ time_of d = mk_time (hour (dom_end shift)) (minute (dom_end shift)) 0 0
        /\ dt_ltb (reference_time strptime now lc) d = true
        /\ dt_leb (mk_datetime (date_of d - 7) (time_of d))
             (reference_time strptime now lc) = true).
Proof.
  intros Hshift R1 R2.
  destruct (resolve_shift_first_last_range _ _ _ _ Hshift) as [Hfirst Hlast].
  unfold calculate_next_due. rewrite Hshift. simpl bind.
  unfold next_due_from, type_is. simpl String.eqb. cbv iota zeta.
  split; apply weekly_candidate_spec; auto.
Qed.

Lemma weekly_due_is_next_first_day_witness :
  exists d : datetime,
    calculate_next_due strptime_digits default_shifts (at_time mon 17 0)
      (Some "2024-01-08 16:45:00"%string) None (Some "start_shift_weekly"%string)
      (Some "B"%string) = Ok d
    /\ weekday d = 0
    /\ dt_ltb (at_time mon 16 45) d = true.
Proof.
  destruct (weekly_due_is_next_first_day strptime_digits default_shifts (at_time mon 17 0)
              (Some "2024-01-08 16:45:00"%string) None (Some "B"%string)
              (mk_shift_domain [0; 1; 2; 3] 0 3 (hm 16 30) (hm 3 30)))
    as [(d & Hd & Hwd & _ & Hlt & _) _].
  - reflexivity.
  - vm_compute. discriminate.
  - vm_compute. discriminate.
  - exists d. split; [exact Hd | ]. split; [exact Hwd | exact Hlt].
Defined.
Lemma time_cmp_lt_iff (a b : time) :
  time_cmp a b = Lt <->
  hour a < hour b \/ (hour a = hour b /\
    (minute a < minute b \/ (minute a = minute b /\
      (second a < second b \/ (second a = second b /\
        microsecond a < microsecond b))))).
Proof.
  unfold time_cmp.
  destruct (Z.compare_spec (hour a) (hour b));
    [ | split; [intros _; lia | reflexivity] | split; [discriminate | lia] ].
  destruct (Z.compare_spec (minute a) (minute b));
    [ | split; [intros _; lia | reflexivity] | split; [discriminate | lia] ].
  destruct (Z.compare_spec (second a) (second b));
    [ | split; [intros _; lia | reflexivity] | split; [discriminate | lia] ].
  rewrite Z.compare_lt_iff. lia.
Qed.

Lemma dt_ltb_iff (a b : datetime) :
  dt_ltb a b = true <->
  date_of a < date_of b \/ (date_of a = date_of b /\ time_cmp (time_of a) (time_of b) = Lt).
Proof.
  unfold dt_ltb, dt_cmp.
  destruct (Z.compare_spec (date_of a) (date_of b)).
  - destruct (time_cmp (time_of a) (time_of b)); split; try discriminate; try tauto;
      intros [Hlt | [_ Hc]]; try lia; discriminate.
  - split; [intros _; lia | reflexivity].
  - split; [discriminate | intros [Hlt | [He _]]; lia].
Qed.

Lemma dt_ltb_trans (a b c : datetime) :
  dt_ltb a b = true -> dt_ltb b c = true -> dt_ltb a c = true.
Proof.
  rewrite !dt_ltb_iff, !time_cmp_lt_iff. lia.
Qed.

Lemma dt_ltb_asym (a b : datetime) : dt_ltb a b = true -> dt_ltb b a = false.
Proof.
  intro H. destruct (dt_ltb b a) eqn:Hba; [ | reflexivity].
  pose proof (dt_ltb_trans _ _ _ H Hba) as Haa.
  rewrite dt_ltb_irrefl in Haa. discriminate Haa.
Qed.

Lemma interval_type_cases (it : option string) :
  (exists s, In s non_legacy /\ it = Some s)
  \/ (forall s, In s non_legacy -> type_is it s = false).
Proof.
  destruct it as [x | ]; [ | right; intros s _; reflexivity].
  destruct (in_dec string_dec x non_legacy) as [Hin | Hnin].
  - left. exists x. split; [exact Hin | reflexivity].
  - right. intros s Hs. simpl. apply String.eqb_neq. intro E. subst. contradiction.
Qed.

Lemma next_due_from_legacy
    (strptime : string -> string -> option datetime) (now ref : datetime)
    (shift : shift_domain) (lc : option string) (idays : option Z)
    (it : option string) :
  (forall s, In s non_legacy -> type_is it s = false) ->
  next_due_from strptime now ref shift lc idays it
  = if truthy lc
    then add_days (reference_time strptime now lc) (interval_days_or_1 idays)
    else Ok now.
Proof.
  intro Hleg. unfold next_due_from. cbv zeta.
  rewrite !Hleg by (unfold non_legacy; simpl; tauto).
  unfold reference_time.
  destruct lc as [s | ]; [ | reflexivity].
  destruct (truthy (Some s)); reflexivity.
Qed.

(** X9. For an interval type that is none of the four shift types (also a
    missing one), once the assigned shift resolves the shift plays no role:
    without a completion the due instant is [now]; with one it is the
    reference moved by [interval_days] days, a missing or zero
    [interval_days] counting as one day, and the due instant is after the
    reference only when that number of days is positive. *)
Theorem legacy_due_date
    (strptime : string -> string -> option datetime) (db : list shift_row)
    (now : datetime) (lc : option string) (idays : option Z)
    (it ashift : option string) :
  returns (resolve_shift strptime db ashift) ->
  (forall s, In s non_legacy -> type_is it s = false) ->
  (truthy lc = false ->
   calculate_next_due strptime db now lc idays it ashift = Ok now)
  /\ (truthy lc = true ->
      calculate_next_due strptime db now lc idays it ashift
      = add_days (reference_time strptime now lc) (interval_days_or_1 idays))
  /\ interval_days_or_1 idays
     = match idays with Some 0 | None => 1 | Some n => n end
  /\ (forall d, truthy lc = true ->
      calculate_next_due strptime db now lc idays it ashift = Ok d ->
      (dt_ltb (reference_time strptime now lc) d = true
       <-> 0 < interval_days_or_1 idays)).
Proof.
  intros [shift Hshift] Hleg.
  assert (Hcalc : calculate_next_due strptime db now lc idays it ashift
                  = if truthy lc
                    then add_days (reference_time strptime now lc)
                           (interval_days_or_1 idays)
                    else Ok now).
  { unfold calculate_next_due. rewrite Hshift. simpl bind.
    apply next_due_from_legacy. exact Hleg. }
  rewrite Hcalc.
  split; [intros ->; reflexivity | ].
  split; [intros ->; reflexivity | ].
  split.
  { destruct idays as [n | ]; [ | reflexivity]. simpl.
    destruct n; reflexivity. }
  intros d Ht Hd. rewrite Ht in Hd.
  apply add_days_Ok in Hd. destruct Hd as [Hdate Htime].
  rewrite dt_ltb_iff, Hdate, Htime, time_cmp_refl.
  assert (Hn : interval_days_or_1 idays <> 0).
  { unfold interval_days_or_1. destruct idays as [n | ]; [ | lia].
    destruct (Z.eqb_spec n 0); lia. }
  split.
  - intros [H | [_ H]]; [lia | discriminate].
  - intro H. left. lia.
Qed.

Lemma legacy_due_date_witness :
  calculate_next_due strptime_digits default_shifts (at_time mon 6 0)
    (Some "2024-01-05 23:00:00"%string) (Some 0) (Some "monthly"%string) (Some "A"%string)
  = Ok (at_time sat 23 0)
  /\ calculate_next_due strptime_digits default_shifts (at_time mon 6 0)
       None (Some 30) None None = Ok (at_time mon 6 0).
Proof.
  assert (Hleg : forall it, it <> Some "start_shift_daily"%string ->
                   it <> Some "start_shift_weekly"%string ->
                   it <> Some "end_shift_daily"%string ->
                   it <> Some "end_shift_weekly"%string ->
                   forall s, In s non_legacy -> type_is it s = false).
  { intros it H1 H2 H3 H4 s Hs. destruct it as [x | ]; [ | reflexivity].
    simpl. apply String.eqb_neq. intro E. subst x.
    unfold non_legacy in Hs. simpl in Hs.
    destruct Hs as [<- | [<- | [<- | [<- | []]]]]; congruence. }
  split.
  - destruct (legacy_due_date strptime_digits default_shifts (at_time mon 6 0)
                (Some "2024-01-05 23:00:00"%string) (Some 0) (Some "monthly"%string)
                (Some "A"%string)) as (_ & Hwith & _).
    + eexists. reflexivity.
    + apply Hleg; discriminate.
    + rewrite Hwith by reflexivity. reflexivity.
  - destruct (legacy_due_date strptime_digits default_shifts (at_time mon 6 0)
                None (Some 30) None None) as (Hnone & _).
    + eexists. reflexivity.
    + apply Hleg; discriminate.
    + apply Hnone. reflexivity.
Defined.

(** ** Status of a task *)

Lemma completion_check_no_record
    (strptime : string -> string -> option datetime) (db : list shift_row)
    (now' : datetime) (lc it ashift : option string) :
  truthy lc && truthy it && truthy ashift = false ->
  completion_check strptime db now' lc it ashift = Ok false.
Proof.
  intro H. unfold completion_check.
  destruct lc as [s | ]; [ | reflexivity].
  destruct it as [ty | ]; [ | reflexivity].
  now rewrite H.
Qed.

Lemma reference_time_no_record
    (strptime : string -> string -> option datetime) (now : datetime)
    (lc : option string) :
  truthy lc = false -> reference_time strptime now lc = now.
Proof.
  intro H. unfold reference_time. destruct lc as [s | ]; [ | reflexivity].
  now rewrite H.
Qed.

Lemma no_record_due_not_before_now
    (strptime : string -> string -> option datetime) (db : list shift_row)
    (now : datetime) (lc : option string) (idays : option Z)
    (it ashift : option string) (d : datetime) :
  truthy lc = false ->
  calculate_next_due strptime db now lc idays it ashift = Ok d ->
  dt_ltb d now = false.
Proof.
  intros Hlc Hd. unfold calculate_next_due in Hd. inv_bind Hd.
  rewrite (reference_time_no_record _ _ _ Hlc) in Hd.
  destruct (interval_type_cases it) as [(s & Hs & ->) | Hleg].
  - apply dt_ltb_asym. eapply next_due_from_after; eassumption.
  - rewrite next_due_from_legacy in Hd by exact Hleg.
    rewrite Hlc in Hd. inversion Hd; subst. apply dt_ltb_irrefl.
Qed.

(** X10. A task with no completion record is never overdue and never
    completed: whatever its interval type and shift, when its due instant
    and its status are computed at the same instant, the status is due or
    upcoming. *)
Theorem never_completed_not_overdue
    (strptime : string -> string -> option datetime) (db : list shift_row)
    (now now' : datetime) (lc : option string) (idays : option Z)
    (it ashift : option string) (d : datetime) :
  truthy lc = false ->
  calculate_next_due strptime db now lc idays it ashift = Ok d ->
  exists st : status,
    get_task_status strptime db now now' d lc it ashift = Ok st
    /\ (st = due \/ st = upcoming).
Proof.
  intros Hlc Hd.
  rewrite get_task_status_not_completed
    by (apply completion_check_no_record; now rewrite Hlc).
  eexists. split; [reflexivity | ].
  unfold standard_status.
  rewrite (no_record_due_not_before_now _ _ _ _ _ _ _ _ Hlc Hd).
  destruct (timedelta_days d now <? 1); auto.
Qed.

Lemma never_completed_not_overdue_witness :
  exists st : status,
    get_task_status strptime_digits default_shifts (at_time mon 6 0) (at_time mon 6 0)
      (at_time mon 16 30) None (Some "start_shift_weekly"%string) (Some "B"%string)
    = Ok st
    /\ (st = due \/ st = upcoming).
Proof.
  apply (never_completed_not_overdue strptime_digits default_shifts (at_time mon 6 0)
           (at_time mon 6 0) None (Some 1) (Some "start_shift_weekly"%string)
           (Some "B"%string) (at_time mon 16 30)); reflexivity.
Defined.

(** X11. For the four shift interval types, a task can be overdue only when
    its reference instant is strictly before the instant the status is
    computed at: with an unparseable completion string the reference is the
    clock reading of [calculate_next_due], so the task is not overdue at
    that same reading. *)
Theorem overdue_needs_past_reference
    (strptime : string -> string -> option datetime) (db : list shift_row)
    (now_due now_status now' : datetime) (lc : option string) (idays : option Z)
    (it : string) (ashift : option string) (d : datetime) :
  In it non_legacy ->
  calculate_next_due strptime db now_due lc idays (Some it) ashift = Ok d ->
  get_task_status strptime db now_status now' d lc (Some it) ashift = Ok overdue ->
  dt_ltb (reference_time strptime now_due lc) d = true
  /\ dt_ltb d now_status = true
  /\ dt_ltb (reference_time strptime now_due lc) now_status = true.
Proof.
  intros Hit Hd Hst.
  assert (Href : dt_ltb (reference_time strptime now_due lc) d = true).
  { unfold calculate_next_due in Hd. inv_bind Hd.
    eapply next_due_from_after; eassumption. }
  assert (Hover : dt_ltb d now_status = true).
  { unfold get_task_status in Hst. inv_bind Hst.
    destruct a; [discriminate Hst | ].
    unfold standard_status in Hst.
    destruct (dt_ltb d now_status); [reflexivity | ].
    destruct (timedelta_days d now_status <? 1); discriminate Hst. }
  split; [exact Href | ]. split; [exact Hover | ].
  eapply dt_ltb_trans; eassumption.
Qed.

Lemma overdue_needs_past_reference_witness :
  dt_ltb (at_time fri 22 10) (at_time mon 16 30) = true
  /\ dt_ltb (at_time mon 16 30) (at_time (mon + 1) 6 0) = true
  /\ dt_ltb (at_time fri 22 10) (at_time (mon + 1) 6 0) = true.
Proof.
  apply (overdue_needs_past_reference strptime_digits default_shifts (at_time fri 23 0)
           (at_time (mon + 1) 6 0) (at_time (mon + 1) 6 0)
           (Some "2024-01-05 22:10:00"%string) (Some 1) "start_shift_daily"
           (Some "B"%string) (at_time mon 16 30)).
  - unfold non_legacy. simpl. tauto.
  - reflexivity.
  - reflexivity.
Defined.

(** X12. When [completed] cannot be the status: a task without a completion
    record, without an interval type or without an assigned shift (so every
    task that applies to all shifts), a task whose completion string does
    not parse, and a task of an active, decodable shift whose interval type
    contains neither [daily] nor [weekly], all get the status of the plain
    comparison of [now] with the due instant. *)
Theorem completed_needs_shift_and_period
    (strptime : string -> string -> option datetime) (db : list shift_row)
    (now now' next_due : datetime) (lc it ashift : option string) :
  standard_status now next_due <> completed
  /\ (truthy lc && truthy it && truthy ashift = false ->
      get_task_status strptime db now now' next_due lc it ashift
      = Ok (standard_status now next_due))
  /\ (forall s, lc = Some s -> parse_completed strptime s = None ->
      get_task_status strptime db now now' next_due lc it ashift
      = Ok (standard_status now next_due))
  /\ (forall s ty row dt,
        lc = Some s -> it = Some ty ->
        parse_completed strptime s = Some dt ->
        assigned_row db ashift = Some row ->
        well_formed_row strptime row ->
        contains "daily" ty = false -> contains "weekly" ty = false ->
        get_task_status strptime db now now' next_due lc it ashift
        = Ok (standard_status now next_due)).
Proof.
  split.
  { unfold standard_status. destruct (dt_ltb next_due now); [discriminate | ].
    destruct (timedelta_days next_due now <? 1); discriminate. }
  split.
  { intro H. apply get_task_status_not_completed.
    apply completion_check_no_record. exact H. }
  split.
  - intros s -> Hparse. apply get_task_status_not_completed.
    unfold completion_check. destruct it as [ty | ]; [ | reflexivity].
    rewrite Hparse. destruct (truthy (Some s) && truthy (Some ty) && truthy ashift);
      reflexivity.
  - intros s ty row dt -> -> Hparse Hrow ([days Hdays] & [st Hst] & [et Het]) Hd Hw.
    apply get_task_status_not_completed.
    unfold completion_check. rewrite Hparse.
    destruct (truthy (Some s) && truthy (Some ty) && truthy ashift); [ | reflexivity].
    unfold is_completed_in_current_shift_period.
    rewrite Hrow, Hdays, Hst, Het. simpl bind. now rewrite Hd, Hw.
Qed.

Lemma completed_needs_shift_and_period_witness :
  get_task_status strptime_digits default_shifts (at_time mon 6 0) (at_time mon 6 0)
    (at_time mon 16 0) (Some "2024-01-08 05:00:00"%string)
    (Some "start_shift_daily"%string) None
  = Ok due
  /\ get_task_status strptime_digits default_shifts (at_time mon 6 0) (at_time mon 6 0)
       (at_time mon 16 0) (Some "2024-01-08 05:00:00"%string)
       (Some "monthly"%string) (Some "A"%string)
     = Ok due.
Proof.
  split.
  - destruct (completed_needs_shift_and_period strptime_digits default_shifts
                (at_time mon 6 0) (at_time mon 6 0) (at_time mon 16 0)
                (Some "2024-01-08 05:00:00"%string) (Some "start_shift_daily"%string)
                None) as (_ & Hnone & _).
    rewrite Hnone by reflexivity. reflexivity.
  - destruct (completed_needs_shift_and_period strptime_digits default_shifts
                (at_time mon 6 0) (at_time mon 6 0) (at_time mon 16 0)
                (Some "2024-01-08 05:00:00"%string) (Some "monthly"%string)
                (Some "A"%string)) as (_ & _ & _ & Hother).
    rewrite (Hother "2024-01-08 05:00:00"%string "monthly"%string
               (mk_shift_row "A" "04:30" "15:30" "Mon,Tue,Wed,Thu" 1 1)
               (at_time mon 5 0)); try reflexivity.
    split; [ | split]; eexists; reflexivity.
Defined.

(** X13. A task assigned to a shift name with no active row is completed
    exactly when its last completion is on the calendar date of [now],
    whatever its interval type, a weekly one included. *)
Theorem unknown_shift_same_calendar_day
    (strptime : string -> string -> option datetime) (db : list shift_row)
    (now now' next_due : datetime) (s ty name : string) (dt : datetime) :
  s <> ""%string -> ty <> ""%string -> name <> ""%string ->
  parse_completed strptime s = Some dt ->
  fetch_active_shift db name = None ->
  get_task_status strptime db now now' next_due (Some s) (Some ty) (Some name)
  = Ok (if date_of dt =? date_of now' then completed else standard_status now next_due).
Proof.
  intros Hs Hty Hname Hparse Hrow.
  apply String.eqb_neq in Hs, Hty, Hname.
  unfold get_task_status, completion_check, truthy.
  rewrite Hs, Hty, Hname. simpl negb. simpl andb. cbv iota.
  rewrite Hparse.
  unfold is_completed_in_current_shift_period, assigned_row, truthy.
  rewrite Hname. simpl negb. cbv iota. rewrite Hrow. simpl.
  destruct (date_of dt =? date_of now'); reflexivity.
Qed.

Lemma unknown_shift_same_calendar_day_witness :
  get_task_status strptime_digits default_shifts (at_time mon 6 0) (at_time mon 6 0)
    (at_time fri 0 0) (Some "2024-01-07 23:59:00"%string)
    (Some "start_shift_weekly"%string) (Some "Night"%string)
  = Ok overdue.
Proof.
  rewrite (unknown_shift_same_calendar_day strptime_digits default_shifts
             (at_time mon 6 0) (at_time mon 6 0) (at_time fri 0 0)
             "2024-01-07 23:59:00" "start_shift_weekly" "Night"
             (at_time (mon - 1) 23 59));
    try discriminate; reflexivity.
Defined.

(** ** The active shift under the shifts of SHIFT_DEFS *)

(** X14. With the four shifts [init_db] stores, and an [int] that reads
    one or two plain digits, [get_active_shift] answers from weekday and minute alone:
    Monday to Thursday A from 04:30 to 15:30, B from 16:30 and before 03:30,
    and the default A with the no-match note in the two gaps 03:30-04:30
    and 15:30-16:30; Friday to Sunday C from 05:00 to 17:00 and D otherwise.
    The hours after midnight go to the overnight shift of that weekday (B on
    Monday, D on Friday), not to the shift that started the evening
    before. *)
Theorem default_shifts_coverage (py_int : string -> option Z) (now : datetime) :
  (forall s n, (String.length s <= 2)%nat -> int_digits s = Some n -> py_int s = Some n) ->
  get_active_shift py_int default_shifts now
  = let m := hour (time_of now) * 60 + minute (time_of now) in
    if weekday now <? 4 then
      if (270 <=? m) && (m <? 930) then mk_shift_reply "success" "A" None
      else if (990 <=? m) || (m <? 210) then mk_shift_reply "success" "B" None
      else fallback_reply "No shift matched current time"
    else
      if (300 <=? m) && (m <? 1020) then mk_shift_reply "success" "C" None
      else mk_shift_reply "success" "D" None.
Proof.
  intro Hpy.
  assert (P04 : py_int "04"%string = Some 4) by (apply Hpy; [simpl; lia | reflexivity]).
  assert (P30 : py_int "30"%string = Some 30) by (apply Hpy; [simpl; lia | reflexivity]).
  assert (P15 : py_int "15"%string = Some 15) by (apply Hpy; [simpl; lia | reflexivity]).
  assert (P16 : py_int "16"%string = Some 16) by (apply Hpy; [simpl; lia | reflexivity]).
  assert (P03 : py_int "03"%string = Some 3) by (apply Hpy; [simpl; lia | reflexivity]).
  assert (P05 : py_int "05"%string = Some 5) by (apply Hpy; [simpl; lia | reflexivity]).
  assert (P00 : py_int "00"%string = Some 0) by (apply Hpy; [simpl; lia | reflexivity]).
  assert (P17 : py_int "17"%string = Some 17) by (apply Hpy; [simpl; lia | reflexivity]).
  assert (Hwd : 0 <= weekday now < 7) by (apply Z.mod_pos_bound; lia).
  unfold get_active_shift, default_shifts. cbv zeta.
  set (m := hour (time_of now) * 60 + minute (time_of now)).
  assert (Hcases : weekday now = 0 \/ weekday now = 1 \/ weekday now = 2 \/
                   weekday now = 3 \/ weekday now = 4 \/ weekday now = 5 \/
                   weekday now = 6) by lia.
  clearbody m.
  destruct Hcases as [E | [E | [E | [E | [E | [E | E]]]]]]; rewrite E;
    cbn -[Z.ltb Z.leb Z.mul Z.add];
    rewrite ?P04, ?P30, ?P15, ?P16, ?P03, ?P05, ?P00, ?P17;
    cbn -[Z.ltb Z.leb];
    repeat match goal with
    | |- context [?a <? ?b] =>
        lazymatch a with
        | context [m] => fail
        | _ => lazymatch b with
               | context [m] => fail
               | _ => let v := eval vm_compute in (a <? b) in
                      change (a <? b) with v
               end
        end
    end; cbv iota;
    first
      [ destruct (Z.leb_spec 270 m); destruct (Z.ltb_spec m 930);
        destruct (Z.leb_spec 990 m); destruct (Z.ltb_spec m 210);
        solve [reflexivity | lia]
      | destruct (Z.leb_spec 300 m); destruct (Z.ltb_spec m 1020);
        destruct (Z.leb_spec 1020 m); destruct (Z.ltb_spec m 300);
        solve [reflexivity | lia] ].
Qed.

Lemma default_shifts_coverage_witness :
  get_active_shift int_digits default_shifts (at_time fri 2 0)
  = mk_shift_reply "success" "D" None
  /\ get_active_shift int_digits default_shifts (at_time mon 16 0)
     = fallback_reply "No shift matched current time".
Proof.
  split.
  - rewrite (default_shifts_coverage int_digits (at_time fri 2 0)); [reflexivity | ].
    intros s n _ H. exact H.
  - rewrite (default_shifts_coverage int_digits (at_time mon 16 0)); [reflexivity | ].
    intros s n _ H. exact H.
Defined.

(** ** The task loops *)

Lemma first_overdue_none
    (strptime : string -> string -> option datetime) (db : list shift_row)
    (clock : nat -> readings) (tasks : list task_row) (i : nat) :
  first_overdue strptime db clock i tasks = Ok None <->
  forall k task, nth_error tasks k = Some task ->
                 task_passes strptime db (clock (i + k)%nat) task.
Proof.
  revert i. induction tasks as [ | task rest IH]; intro i; simpl.
  - split; [ | reflexivity]. intros _ k task H. destruct k; discriminate H.
  - split.
    + intro H. inv_bind H. inv_bind H.
      assert (Hst : a0 <> overdue /\ first_overdue strptime db clock (S i) rest = Ok None).
      { destruct a0; try (split; [discriminate | exact H]). discriminate H. }
      destruct Hst as [Hne Hrest].
      intros k t Hk. destruct k as [ | k]; simpl in Hk.
      * inversion Hk; subst t. rewrite Nat.add_0_r.
        exists a, a0. repeat split; assumption.
      * replace (i + S k)%nat with (S i + k)%nat by lia.
        apply (proj1 (IH (S i)) Hrest k t Hk).
    + intro H.
      destruct (H 0%nat task eq_refl) as (d & st & Hd & Hst & Hne).
      rewrite Nat.add_0_r in Hd, Hst. rewrite Hd. simpl bind. rewrite Hst. simpl bind.
      assert (Hrest : first_overdue strptime db clock (S i) rest = Ok None).
      { apply IH. intros k t Hk.
        replace (S i + k)%nat with (i + S k)%nat by lia. apply H. exact Hk. }
      destruct st; try exact Hrest. congruence.
Qed.

(** X15. [ignition_run_permissive] answers [run_permissive: true] exactly
    when, for every row of the query, the due instant and the status are
    computed without an exception and the status is not overdue; the HTTP
    status is then 200 and the reply has neither reason nor error. *)
Theorem run_permissive_iff_no_task_blocks
    (strptime : string -> string -> option datetime) (db : list shift_row)
    (clock : nat -> readings) (tasks : list task_row) :
  (run_permissive (ignition_run_permissive strptime db clock tasks) = true <->
   forall k task, nth_error tasks k = Some task ->
                  task_passes strptime db (clock k) task)
  /\ (run_permissive (ignition_run_permissive strptime db clock tasks) = true ->
      ignition_run_permissive strptime db clock tasks
      = mk_permissive_reply true None None 200).
Proof.
  pose proof (first_overdue_none strptime db clock tasks 0) as Hnone.
  simpl in Hnone. unfold ignition_run_permissive.
  destruct (first_overdue strptime db clock 0 tasks) as [[task | ] | e]; simpl.
  - split; [ | discriminate]. split; [discriminate | ].
    intro H. apply Hnone in H. discriminate H.
  - split; [ | reflexivity]. split; [ | reflexivity].
    intros _. apply Hnone. reflexivity.
  - split; [ | discriminate]. split; [discriminate | ].
    intro H. apply Hnone in H. discriminate H.
Qed.

Lemma run_permissive_iff_no_task_blocks_witness :
  ignition_run_permissive strptime_digits default_shifts
    (fun _ => mk_readings (at_time mon 6 0) (at_time mon 6 0) (at_time mon 6 0)
                (at_time mon 6 0))
    [mk_task_row "Daily Equipment Inspection" (Some "2024-01-08 05:00:00"%string)
       (Some 1) (Some "start_shift_daily"%string) (Some "A"%string)]
  = mk_permissive_reply true None None 200.
Proof.
  apply run_permissive_iff_no_task_blocks. reflexivity.
Defined.

Lemma first_overdue_some
    (strptime : string -> string -> option datetime) (db : list shift_row)
    (clock : nat -> readings) (tasks : list task_row) (i : nat) (task : task_row) :
  first_overdue strptime db clock i tasks = Ok (Some task) ->
  exists (k : nat) (d : datetime),
    nth_error tasks k = Some task
    /\ task_next_due strptime db (at_due (clock (i + k)%nat)) task = Ok d
    /\ task_status strptime db (at_status (clock (i + k)%nat))
         (at_period (clock (i + k)%nat)) d task = Ok overdue
    /\ forall j t, (j < k)%nat -> nth_error tasks j = Some t ->
                   task_passes strptime db (clock (i + j)%nat) t.
Proof.
  revert i. induction tasks as [ | t0 rest IH]; intro i; simpl; [discriminate | ].
  intro H. inv_bind H. inv_bind H.
  destruct a0 eqn:Est.
  2: { inversion H; subst task. exists 0%nat, a. rewrite Nat.add_0_r.
       split; [reflexivity | ]. split; [exact Ha | ]. split; [exact Ha0 | ].
       intros j t Hj. lia. }
  all: destruct (IH (S i) H) as (k & d & Hk & Hd & Hst & Hbefore);
    exists (S k), d; replace (i + S k)%nat with (S i + k)%nat by lia;
    (split; [exact Hk | ]); (split; [exact Hd | ]); (split; [exact Hst | ]);
    intros j t Hj Ht; destruct j as [ | j]; simpl in Ht;
    [ inversion Ht; subst t; rewrite Nat.add_0_r;
      exists a, a0; subst a0; repeat split; try assumption; discriminate
    | replace (i + S j)%nat with (S i + j)%nat by lia;
      apply Hbefore; [lia | exact Ht] ].
Qed.

(** X16. When [ignition_run_permissive] gives a reason, it names a row that
    is overdue, the first one in the order of the query: every row before it
    was computed without an exception and is not overdue. The HTTP status is
    200. *)
Theorem run_permissive_reason_names_first_overdue
    (strptime : string -> string -> option datetime) (db : list shift_row)
    (clock : nat -> readings) (tasks : list task_row) (r : string) :
  reason (ignition_run_permissive strptime db clock tasks) = Some r ->
  exists (k : nat) (task : task_row) (d : datetime),
    nth_error tasks k = Some task
    /\ r = String.append "High priority task "
             (String.append dquote
                (String.append (task_name task) (String.append dquote " is overdue")))
    /\ task_next_due strptime db (at_due (clock k)) task = Ok d
    /\ task_status strptime db (at_status (clock k)) (at_period (clock k)) d task
       = Ok overdue
    /\ (forall j t, (j < k)%nat -> nth_error tasks j = Some t ->
                    task_passes strptime db (clock j) t)
    /\ run_permissive (ignition_run_permissive strptime db clock tasks) = false
    /\ http_status (ignition_run_permissive strptime db clock tasks) = 200.
Proof.
  unfold ignition_run_permissive.
  destruct (first_overdue strptime db clock 0 tasks) as [[task | ] | e] eqn:Hloop;
    simpl; intro H; try discriminate H.
  inversion H; subst r.
  destruct (first_overdue_some _ _ _ _ _ _ Hloop) as (k & d & Hk & Hd & Hst & Hbefore).
  simpl in Hd, Hst, Hbefore.
  exists k, task, d. repeat split; try assumption; reflexivity.
Qed.

Lemma run_permissive_reason_names_first_overdue_witness :
  exists (k : nat) (task : task_row),
    nth_error
      [mk_task_row "Clean" None None (Some "start_shift_daily"%string) (Some "A"%string);
       mk_task_row "Oil" (Some "2024-01-05 05:00:00"%string) None
         (Some "start_shift_daily"%string) (Some "C"%string)] k = Some task
    /\ task_name task = "Oil"%string.
Proof.
  destruct (run_permissive_reason_names_first_overdue strptime_digits default_shifts
              (fun _ => mk_readings (at_time mon 6 0) (at_time mon 6 0) (at_time mon 6 0)
                          (at_time mon 6 0))
              [mk_task_row "Clean" None None (Some "start_shift_daily"%string)
                 (Some "A"%string);
               mk_task_row "Oil" (Some "2024-01-05 05:00:00"%string) None
                 (Some "start_shift_daily"%string) (Some "C"%string)]
              (String.append "High priority task "
                 (String.append dquote
                    (String.append "Oil" (String.append dquote " is overdue")))))
    as (k & task & d & Hk & Hr & _).
  - reflexivity.
  - exists k, task. split; [exact Hk | ].
    destruct k as [ | [ | k]]; simpl in Hk.
    + inversion Hk; subst task. vm_compute in Hr. discriminate Hr.
    + inversion Hk; subst task. reflexivity.
    + destruct k; discriminate Hk.
Defined.

Lemma calculate_next_due_returns_no_record
    (strptime : string -> string -> option datetime) (db : list shift_row)
    (now : datetime) (lc : option string) (idays : option Z) (it ashift : option string) :
  truthy lc = false ->
  (forall row, assigned_row db ashift = Some row -> well_formed_row strptime row) ->
  1 <= date_of now -> date_of now + 14 <= MAXORDINAL ->
  returns (calculate_next_due strptime db now lc idays it ashift).
Proof.
  intros Hlc Hwf R1 R2. unfold calculate_next_due.
  destruct (resolve_shift_returns strptime db ashift Hwf) as [shift Hshift].
  rewrite Hshift. simpl bind. rewrite (reference_time_no_record _ _ _ Hlc).
  destruct (resolve_shift_days _ _ _ _ Hshift) as [Hne _].
  destruct (interval_type_cases it) as [(s & Hs & ->) | Hleg].
  - apply next_due_from_returns; assumption.
  - rewrite next_due_from_legacy by exact Hleg. rewrite Hlc. apply returns_Ok.
Qed.

(** X17. Tasks that were never completed never block the run permissive:
    when no row has a completion, the shift rows the tasks are assigned to
    decode, and each iteration reads one instant for the due date and the
    status, [ignition_run_permissive] answers [run_permissive: true]. *)
Theorem never_completed_tasks_permit
    (strptime : string -> string -> option datetime) (db : list shift_row)
    (clock : nat -> readings) (tasks : list task_row) :
  (forall task, In task tasks -> truthy (task_last_completed task) = false) ->
  (forall task row, In task tasks ->
     assigned_row db (task_assigned_shift task) = Some row ->
     well_formed_row strptime row) ->
  (forall k, at_status (clock k) = at_due (clock k)
             /\ 1 <= date_of (at_due (clock k))
             /\ date_of (at_due (clock k)) + 14 <= MAXORDINAL) ->
  ignition_run_permissive strptime db clock tasks
  = mk_permissive_reply true None None 200.
Proof.
  intros Hnever Hwf Hclock.
  unfold ignition_run_permissive.
  replace (first_overdue strptime db clock 0 tasks) with (@Ok (option task_row) None);
    [reflexivity | ].
  symmetry. apply first_overdue_none.
  intros k task Hk. apply nth_error_In in Hk. simpl.
  destruct (Hclock k) as (Hsame & R1 & R2).
  destruct (calculate_next_due_returns_no_record strptime db (at_due (clock k))
              (task_last_completed task) (task_interval_days task)
              (task_interval_type task) (task_assigned_shift task)
              (Hnever task Hk) (fun row => Hwf task row Hk) R1 R2) as [d Hd].
  pose proof (no_record_due_not_before_now _ _ _ _ _ _ _ _ (Hnever task Hk) Hd) as Hnot.
  exists d, (standard_status (at_due (clock k)) d).
  unfold task_next_due, task_status. rewrite Hsame.
  split; [exact Hd | ]. split.
  - apply get_task_status_not_completed. apply completion_check_no_record.
    now rewrite (Hnever task Hk).
  - unfold standard_status. rewrite Hnot.
    destruct (timedelta_days d (at_due (clock k)) <? 1); discriminate.
Qed.

Lemma never_completed_tasks_permit_witness :
  ignition_run_permissive strptime_digits default_shifts
    (fun _ => mk_readings (at_time mon 6 0) (at_time mon 6 0) (at_time mon 6 0)
                (at_time mon 6 0))
    [mk_task_row "Daily Equipment Inspection" None (Some 1)
       (Some "start_shift_daily"%string) (Some "A"%string);
     mk_task_row "Weekly Lubrication" (Some ""%string) (Some 7)
       (Some "end_shift_weekly"%string) None]
  = mk_permissive_reply true None None 200.
Proof.
  apply never_completed_tasks_permit.
  - intros task [<- | [<- | []]]; reflexivity.
  - intros task row [<- | [<- | []]] Hrow; vm_compute in Hrow;
      inversion Hrow; subst; repeat split; eexists; vm_compute; reflexivity.
  - intro k. simpl. split; [reflexivity | ]. vm_compute. split; discriminate.
Defined.

(** X18. [get_tasks] lists exactly the tasks whose processing raises no
    exception: an entry is in the listing iff it is what the loop body
    returns for some row, and the listing is as long as the list of rows iff
    the body returns for every row; a row that raises is left out and the
    request still succeeds. *)
Theorem list_tasks_skips_raising_rows
    (strptime : string -> string -> option datetime) (db : list shift_row)
    (clock : nat -> readings) (tasks : list task_row) (i : nat) :
  (forall entry,
      In entry (list_tasks strptime db clock i tasks) <->
      exists k task, nth_error tasks k = Some task
                     /\ task_entry_of strptime db (clock (i + k)%nat) task = Ok entry)
  /\ (List.length (list_tasks strptime db clock i tasks) <= List.length tasks)%nat
  /\ (List.length (list_tasks strptime db clock i tasks) = List.length tasks <->
      forall k task, nth_error tasks k = Some task ->
                     returns (task_entry_of strptime db (clock (i + k)%nat) task)).
Proof.
  revert i. induction tasks as [ | task rest IH]; intro i; simpl.
  - split; [ | split; [lia | ] ].
    + intro entry. split; [intros [] | ].
      intros (k & t & Hk & _). destruct k; discriminate Hk.
    + split; [ | reflexivity]. intros _ k t Hk. destruct k; discriminate Hk.
  - destruct (IH (S i)) as (IHin & IHle & IHlen).
    assert (Hshift : forall k, (i + S k)%nat = (S i + k)%nat) by (intro; lia).
    destruct (task_entry_of strptime db (clock i) task) as [e0 | ex] eqn:Hbody; simpl.
    + split; [ | split; [lia | ] ].
      * intro entry. split.
        -- intros [<- | Hin].
           ++ exists 0%nat, task. rewrite Nat.add_0_r. split; [reflexivity | exact Hbody].
           ++ apply IHin in Hin. destruct Hin as (k & t & Hk & Ht).
              exists (S k), t. rewrite Hshift. split; assumption.
        -- intros (k & t & Hk & Ht). destruct k as [ | k]; simpl in Hk.
           ++ inversion Hk; subst t. rewrite Nat.add_0_r in Ht.
              rewrite Hbody in Ht. inversion Ht. left. reflexivity.
           ++ right. apply IHin. exists k, t. rewrite <- Hshift. split; assumption.
      * split.
        -- intros Hlen k t Hk. destruct k as [ | k]; simpl in Hk.
           ++ inversion Hk; subst t. rewrite Nat.add_0_r. exists e0. exact Hbody.
           ++ rewrite Hshift. apply IHlen; [lia | exact Hk].
        -- intro Hall. f_equal. apply IHlen. intros k t Hk.
           rewrite <- Hshift. apply Hall. exact Hk.
    + split; [ | split; [lia | ] ].
      * intro entry. split.
        -- intro Hin. apply IHin in Hin. destruct Hin as (k & t & Hk & Ht).
           exists (S k), t. rewrite Hshift. split; assumption.
        -- intros (k & t & Hk & Ht). destruct k as [ | k]; simpl in Hk.
           ++ inversion Hk; subst t. rewrite Nat.add_0_r in Ht.
              rewrite Hbody in Ht. discriminate Ht.
           ++ apply IHin. exists k, t. rewrite <- Hshift. split; assumption.
      * split; [intro Hlen; lia | ].
        intro Hall. destruct (Hall 0%nat task eq_refl) as [e He].
        rewrite Nat.add_0_r, Hbody in He. discriminate He.
Qed.

Lemma get_task_status_cases
    (strptime : string -> string -> option datetime) (db : list shift_row)
    (now now' next_due : datetime) (lc it ashift : option string) (st : status) :
  get_task_status strptime db now now' next_due lc it ashift = Ok st ->
  st = completed \/ st = standard_status now next_due.
Proof.
  unfold get_task_status. intro H. inv_bind H.
  destruct a; inversion H; auto.
Qed.

(** X19. In an entry of [get_tasks] that is not completed, when
    [days_until_due] is taken at the instant of the status, the two agree:
    the task is overdue iff [days_until_due] is negative (the day count of a
    negative difference is rounded down, so one second late is already -1),
    due iff it is 0, upcoming iff it is at least 1. *)
Theorem listed_days_until_due_sign
    (strptime : string -> string -> option datetime) (db : list shift_row)
    (r : readings) (task : task_row) (entry : task_entry) :
  task_entry_of strptime db r task = Ok entry ->
  at_days r = at_status r ->
  valid_time (time_of (at_status r)) ->
  valid_time (time_of (entry_next_due entry)) ->
  entry_status entry <> completed ->
  (entry_status entry = overdue <-> entry_days_until_due entry < 0)
  /\ (entry_status entry = due <-> entry_days_until_due entry = 0)
  /\ (entry_status entry = upcoming <-> 1 <= entry_days_until_due entry).
Proof.
  intros Hbody Hsame Vn Vd Hnc.
  unfold task_entry_of in Hbody. inv_bind Hbody. inv_bind Hbody.
  inversion Hbody; subst entry; simpl in *.
  unfold task_status in Ha0. apply get_task_status_cases in Ha0.
  destruct Ha0 as [-> | ->]; [congruence | ].
  rewrite Hsame. rewrite standard_status_classify by assumption.
  unfold classify, timedelta_days.
  set (x := dt_us a - dt_us (at_status r)).
  pose proof (Z.div_mod x US_PER_DAY ltac:(unfold US_PER_DAY; lia)) as Hdm.
  pose proof (Z.mod_pos_bound x US_PER_DAY ltac:(unfold US_PER_DAY; lia)) as Hmod.
  destruct (Z.ltb_spec (dt_us a) (dt_us (at_status r))) as [Hlt | Hge].
  - assert (x / US_PER_DAY < 0) by (unfold US_PER_DAY in *; lia).
    split; [split; [intros _; assumption | reflexivity] | ].
    split; split; try discriminate; intro; lia.
  - rewrite Z.quot_div_nonneg by (unfold US_PER_DAY; lia).
    fold x. assert (0 <= x / US_PER_DAY) by (unfold US_PER_DAY in *; lia).
    destruct (Z.ltb_spec (x / US_PER_DAY) 1) as [H1 | H1].
    + split; [split; [discriminate | intro; lia] | ].
      split; [split; [intros _; lia | reflexivity] | ].
      split; [discriminate | intro; lia].
    + split; [split; [discriminate | intro; lia] | ].
      split; [split; [discriminate | intro; lia] | ].
      split; [intros _; lia | reflexivity].
Qed.

Lemma listed_days_until_due_sign_witness :
  task_entry_of strptime_digits default_shifts
    (mk_readings (at_time mon 6 0) (at_time (mon + 1) 16 31) (at_time (mon + 1) 16 31)
       (at_time (mon + 1) 16 31))
    (mk_task_row "Oil" (Some "2024-01-05 05:00:00"%string) None
       (Some "start_shift_daily"%string) (Some "B"%string))
  = Ok (mk_task_entry
          (mk_task_row "Oil" (Some "2024-01-05 05:00:00"%string) None
             (Some "start_shift_daily"%string) (Some "B"%string))
          (at_time mon 16 30) overdue (-2))
  /\ (overdue = overdue <-> -2 < 0).
Proof.
  split; [reflexivity | ].
  apply (listed_days_until_due_sign strptime_digits default_shifts
           (mk_readings (at_time mon 6 0) (at_time (mon + 1) 16 31)
              (at_time (mon + 1) 16 31) (at_time (mon + 1) 16 31))
           (mk_task_row "Oil" (Some "2024-01-05 05:00:00"%string) None
              (Some "start_shift_daily"%string) (Some "B"%string))
           (mk_task_entry
              (mk_task_row "Oil" (Some "2024-01-05 05:00:00"%string) None
                 (Some "start_shift_daily"%string) (Some "B"%string))
              (at_time mon 16 30) overdue (-2))).
  - reflexivity.
  - reflexivity.
  - unfold valid_time. simpl. lia.
  - unfold valid_time. simpl. lia.
  - discriminate.
Defined.

(** ** A completed daily task becomes due again *)

Lemma start_shift_daily_due_form
    (strptime : string -> string -> option datetime) (now ref : datetime)
    (shift : shift_domain) (lc : option string) (idays : option Z) (d : datetime) :
  1 <= date_of ref -> date_of ref + 7 <= MAXORDINAL ->
  next_due_from strptime now ref shift lc idays (Some "start_shift_daily"%string) = Ok d ->
  exists i, 1 <= i <= 7 /\ d = due_at ref i (dom_start shift).
Proof.
  intros R1 R2 H.
  assert (Hoff : Forall (fun i => 1 <= i /\ date_of ref + i <= MAXORDINAL) range_1_8).
  { unfold range_1_8. repeat constructor; lia. }
  unfold next_due_from, type_is in H. simpl String.eqb in H. cbv iota zeta in H.
  rewrite (scan_shift_days_find _ _ _ _ Hoff R1) in H.
  destruct (find (fun i => z_in ((weekday ref + i) mod 7) (dom_days shift)) range_1_8)
    as [i | ] eqn:Hfind; simpl in H.
  - destruct (find_range_1_8_least _ _ Hfind) as (Hi & _ & _).
    exists i. split; [exact Hi | ]. injection H as <-. reflexivity.
  - pose proof (mod7_or_7_range (dom_first_day shift - weekday ref)) as Hk.
    rewrite add_days_in_range in H by lia. simpl in H.
    eexists. split; [exact Hk | ]. injection H as <-. reflexivity.
Qed.

Lemma shiftDateOf_le (days : list Z) (st et : time) (c : datetime) (a : date) :
  shiftDateOf days st et c = Some a -> a <= date_of c.
Proof.
  unfold shiftDateOf.
  destruct (negb (z_in (weekday c) days)); [discriminate | ].
  destruct (isOvernight st et).
  - destruct (time_leb st (time_of c)); intro H; inversion H; lia.
  - destruct (time_leb st (time_of c) && time_ltb (time_of c) et); intro H;
      inversion H; lia.
Qed.

Lemma shiftDateOf_at_start (days : list Z) (st et : time) (d : datetime) (b : date) :
  time_of d = st -> shiftDateOf days st et d = Some b -> b = date_of d.
Proof.
  intro Ht. unfold shiftDateOf. rewrite Ht.
  destruct (negb (z_in (weekday d) days)); [discriminate | ].
  assert (Hle : time_leb st st = true).
  { unfold time_leb. now rewrite time_cmp_refl. }
  rewrite Hle.
  destruct (isOvernight st et); [intro H; now inversion H | ].
  destruct (true && time_ltb st et); intro H; now inversion H.
Qed.

(** X20. A daily task is due again at its due instant: for the interval
    type [start_shift_daily], whatever the last completion was, the status
    computed at the due instant that [calculate_next_due] returned is due,
    not completed and not overdue. The start time of the shift is a time
    with seconds at zero, as the HH:MM parse gives. *)
Theorem daily_task_due_again_at_due_instant
    (strptime : string -> string -> option datetime) (db : list shift_row)
    (now : datetime) (lc : option string) (idays : option Z)
    (ashift : option string) (shift : shift_domain) (d : datetime) :
  resolve_shift strptime db ashift = Ok shift ->
  second (dom_start shift) = 0 -> microsecond (dom_start shift) = 0 ->
  1 < date_of (reference_time strptime now lc) ->
  date_of (reference_time strptime now lc) + 7 <= MAXORDINAL ->
  calculate_next_due strptime db now lc idays (Some "start_shift_daily"%string) ashift
  = Ok d ->
  get_task_status strptime db d d d lc (Some "start_shift_daily"%string) ashift = Ok due.
Proof.
  intros Hshift Hsec Hus R1 R2 Hd.
  assert (Hform : exists i, 1 <= i <= 7
                    /\ d = due_at (reference_time strptime now lc) i (dom_start shift)).
  { unfold calculate_next_due in Hd. rewrite Hshift in Hd. simpl bind in Hd.
    eapply start_shift_daily_due_form; [ | | eassumption]; lia. }
  destruct Hform as (i & Hi & Hdue).
  assert (Hdate : date_of d = date_of (reference_time strptime now lc) + i)
    by (rewrite Hdue; reflexivity).
  assert (Htime : time_of d = dom_start shift).
  { rewrite Hdue. unfold due_at. simpl.
    destruct (dom_start shift) as [h m sc us]. simpl in *. now subst. }
  assert (Hcheck : completion_check strptime db d lc (Some "start_shift_daily"%string)
                     ashift = Ok false).
  { unfold completion_check.
    destruct lc as [s | ]; [ | reflexivity].
    destruct (truthy (Some s)) eqn:Hts; [ | reflexivity].
    change (truthy (Some "start_shift_daily"%string)) with true. simpl andb.
    destruct (truthy ashift); [ | reflexivity].
    destruct (parse_completed strptime s) as [dt | ] eqn:Hparse; [ | reflexivity].
    rewrite (reference_time_parsed _ _ _ _ Hts Hparse) in *.
    unfold is_completed_in_current_shift_period.
    unfold resolve_shift in Hshift.
    destruct (assigned_row db ashift) as [row | ].
    - inv_bind Hshift. inv_bind Hshift. inv_bind Hshift. inv_bind Hshift.
      inv_bind Hshift. inversion Hshift; subst shift; simpl in *.
      rewrite Ha, Ha2, Ha3. simpl bind.
      replace (contains "daily" "start_shift_daily") with true by reflexivity.
      unfold is_same_shift_occurrence.
      rewrite !get_shift_date_for_time_spec by lia. simpl bind.
      destruct (shiftDateOf a a2 a3 dt) as [x | ] eqn:Hx; [ | reflexivity].
      destruct (shiftDateOf a a2 a3 d) as [y | ] eqn:Hy; [ | reflexivity].
      apply shiftDateOf_le in Hx. apply (shiftDateOf_at_start _ _ _ _ _ Htime) in Hy.
      f_equal. apply Z.eqb_neq. lia.
    - f_equal. apply Z.eqb_neq. lia. }
  rewrite (get_task_status_not_completed _ _ _ _ _ _ _ _ Hcheck).
  unfold standard_status, timedelta_days.
  rewrite dt_ltb_irrefl, Z.sub_diag. reflexivity.
Qed.

Lemma daily_task_due_again_at_due_instant_witness :
  get_task_status strptime_digits default_shifts (at_time mon 16 30) (at_time mon 16 30)
    (at_time mon 16 30) (Some "2024-01-05 22:10:00"%string)
    (Some "start_shift_daily"%string) (Some "B"%string) = Ok due.
Proof.
  apply (daily_task_due_again_at_due_instant strptime_digits default_shifts
           (at_time fri 23 0) (Some "2024-01-05 22:10:00"%string) (Some 1)
           (Some "B"%string) (mk_shift_domain [0; 1; 2; 3] 0 3 (hm 16 30) (hm 3 30))
           (at_time mon 16 30)); try reflexivity.
  vm_compute. discriminate.
Defined.

(** ** Unparseable completion strings *)

(** X21. A completion string that parses with neither format counts as no
    completion for the four shift interval types: the due instant is the one
    of a task never completed. For any other interval type it does not: the
    due instant is [now] moved by the interval, where a task never completed
    is due [now]. *)
Theorem unparseable_completion_due_date
    (strptime : string -> string -> option datetime) (db : list shift_row)
    (now : datetime) (s : string) (idays : option Z) (it ashift : option string) :
  parse_completed strptime s = None ->
  ((exists ty, In ty non_legacy /\ it = Some ty) ->
   calculate_next_due strptime db now (Some s) idays it ashift
   = calculate_next_due strptime db now None idays it ashift)
  /\ ((forall ty, In ty non_legacy -> type_is it ty = false) ->
      s <> ""%string ->
      returns (resolve_shift strptime db ashift) ->
      calculate_next_due strptime db now (Some s) idays it ashift
      = add_days now (interval_days_or_1 idays)
      /\ calculate_next_due strptime db now None idays it ashift = Ok now).
Proof.
  intro Hparse.
  pose proof (reference_time_unparseable strptime now s Hparse) as Href.
  split.
  - intros (ty & Hty & ->). unfold calculate_next_due. rewrite Href. simpl reference_time.
    destruct (resolve_shift strptime db ashift) as [shift | e]; [ | reflexivity].
    simpl bind. unfold non_legacy in Hty. simpl in Hty.
    destruct Hty as [<- | [<- | [<- | [<- | []]]]]; reflexivity.
  - intros Hleg Hs [shift Hshift]. unfold calculate_next_due.
    rewrite Hshift. simpl bind. rewrite !next_due_from_legacy by exact Hleg.
    rewrite Href. apply String.eqb_neq in Hs. unfold truthy. rewrite Hs.
    split; reflexivity.
Qed.

Lemma unparseable_completion_due_date_witness :
  calculate_next_due strptime_digits default_shifts (at_time mon 6 0)
    (Some "08/01/2024"%string) (Some 30) (Some "monthly"%string) None
  = Ok (at_time (mon + 30) 6 0)
  /\ calculate_next_due strptime_digits default_shifts (at_time mon 6 0)
       (Some "08/01/2024"%string) (Some 30) (Some "end_shift_daily"%string) None
     = calculate_next_due strptime_digits default_shifts (at_time mon 6 0)
         None (Some 30) (Some "end_shift_daily"%string) None.
Proof.
  split.
  - destruct (unparseable_completion_due_date strptime_digits default_shifts
                (at_time mon 6 0) "08/01/2024" (Some 30) (Some "monthly"%string) None)
      as [_ Hleg]; [reflexivity | ].
    destruct Hleg as [H _].
    + intros ty Hty. unfold non_legacy in Hty. simpl in Hty.
      destruct Hty as [<- | [<- | [<- | [<- | []]]]]; reflexivity.
    + discriminate.
    + eexists. reflexivity.
    + rewrite H. reflexivity.
  - destruct (unparseable_completion_due_date strptime_digits default_shifts
                (at_time mon 6 0) "08/01/2024" (Some 30)
                (Some "end_shift_daily"%string) None)
      as [Hshift _]; [reflexivity | ].
    apply Hshift. exists "end_shift_daily"%string.
    split; [unfold non_legacy; simpl; tauto | reflexivity].
Defined.

Lemma list_tasks_skips_raising_rows_witness :
  exists entry : task_entry,
    In entry
      (list_tasks strptime_digits (imported_shift :: default_shifts)
         (fun _ => mk_readings (at_time mon 6 0) (at_time mon 6 0) (at_time mon 6 0)
                     (at_time mon 6 0)) 0
         [mk_task_row "Imported" None None (Some "start_shift_daily"%string)
            (Some "E"%string);
          mk_task_row "Clean" None None (Some "start_shift_daily"%string)
            (Some "A"%string)])
    /\ task_name (entry_task entry) = "Clean"%string.
Proof.
  eexists. split.
  - apply list_tasks_skips_raising_rows.
    exists 1%nat, (mk_task_row "Clean" None None (Some "start_shift_daily"%string)
                     (Some "A"%string)).
    split; reflexivity.
  - reflexivity.
Defined.

(** ** Completion inside an overnight occurrence *)

Lemma time_cmp_antisym (a b : time) : time_cmp b a = CompOpp (time_cmp a b).
Proof.
  unfold time_cmp.
  rewrite (Z.compare_antisym (hour a) (hour b)).
  rewrite (Z.compare_antisym (minute a) (minute b)).
  rewrite (Z.compare_antisym (second a) (second b)).
  rewrite (Z.compare_antisym (microsecond a) (microsecond b)).
  destruct (hour a ?= hour b); simpl; try reflexivity.
  destruct (minute a ?= minute b); simpl; try reflexivity.
  destruct (second a ?= second b); simpl; reflexivity.
Qed.

Lemma time_cmp_Lt_trans (a b c : time) :
  time_cmp a b = Lt -> time_cmp b c = Lt -> time_cmp a c = Lt.
Proof.
  rewrite !time_cmp_lt_iff. lia.
Qed.

Lemma shiftDateOf_in_occurrence (days : list Z) (st et : time) (anchor : date)
    (i : datetime) :
  in_occurrence days st et anchor i = true ->
  z_in (weekday i) days = true ->
  shiftDateOf days st et i = Some anchor.
Proof.
  unfold in_occurrence, shiftDateOf. intros Hocc Hwd. rewrite Hwd. simpl negb.
  apply andb_true_iff in Hocc. destruct Hocc as [_ Hocc].
  destruct (isOvernight st et) eqn:Hov.
  - apply orb_true_iff in Hocc. destruct Hocc as [Hocc | Hocc];
      apply andb_true_iff in Hocc; destruct Hocc as [Hd Ht]; apply Z.eqb_eq in Hd.
    + rewrite Ht. now rewrite Hd.
    + assert (Hlt : time_cmp (time_of i) st = Lt).
      { unfold isOvernight, time_ltb in Hov, Ht.
        apply (time_cmp_Lt_trans _ et).
        - destruct (time_cmp (time_of i) et); [discriminate | reflexivity | discriminate].
        - destruct (time_cmp et st); [discriminate | reflexivity | discriminate]. }
      unfold time_leb. rewrite (time_cmp_antisym (time_of i) st), Hlt. simpl.
      rewrite Hd. apply f_equal. unfold date in *. lia.
  - apply andb_true_iff in Hocc. destruct Hocc as [Hocc Hlt].
    apply andb_true_iff in Hocc. destruct Hocc as [Hd Hle]. apply Z.eqb_eq in Hd.
    rewrite Hle, Hlt. simpl. now rewrite Hd.
Qed.

(** Where the code does honour the occurrence: two instants of one
    occurrence whose own weekdays are both active are the same occurrence
    for [is_same_shift_occurrence]. *)
Lemma same_occurrence_on_active_weekdays (days : list Z) (st et : time) (anchor : date)
    (c n : datetime) :
  1 < date_of c <= MAXORDINAL -> 1 < date_of n <= MAXORDINAL ->
  in_occurrence days st et anchor c = true ->
  in_occurrence days st et anchor n = true ->
  z_in (weekday c) days = true -> z_in (weekday n) days = true ->
  is_same_shift_occurrence c n days st et = Ok true.
Proof.
  intros Rc Rn Hc Hn Wc Wn. unfold is_same_shift_occurrence.
  rewrite !get_shift_date_for_time_spec by assumption.
  rewrite (shiftDateOf_in_occurrence _ _ _ _ _ Hc Wc).
  rewrite (shiftDateOf_in_occurrence _ _ _ _ _ Hn Wn).
  simpl. now rewrite Z.eqb_refl.
Qed.

(** C2. The claim run on the code. Shift D of [SHIFT_DEFS] is active Friday
    to Sunday from 17:00 to 05:00. A completion on Sunday 23:00 and the
    instant Monday 04:00 lie in one occurrence of it, the one that starts on
    Sunday; the completion parses and the shift resolves. Yet the completion
    check answers false, so [get_task_status] never answers completed there:
    it answers the plain comparison with [next_due], overdue when [now] is
    after it. Monday is not an active weekday, and
    [get_shift_date_for_time] gives the instant no shift date. *)
Theorem completion_in_overnight_tail_not_completed :
  resolve_shift strptime_digits default_shifts (Some "D"%string)
  = Ok (mk_shift_domain [4; 5; 6] 4 6 (hm 17 0) (hm 5 0))
  /\ parse_completed strptime_digits "2024-01-07 23:00:00" = Some (at_time (mon - 1) 23 0)
  /\ in_occurrence [4; 5; 6] (hm 17 0) (hm 5 0) (mon - 1) (at_time (mon - 1) 23 0) = true
  /\ in_occurrence [4; 5; 6] (hm 17 0) (hm 5 0) (mon - 1) (at_time mon 4 0) = true
  /\ (forall next_due : datetime,
        get_task_status strptime_digits default_shifts (at_time mon 4 0) (at_time mon 4 0)
          next_due (Some "2024-01-07 23:00:00"%string) (Some "start_shift_daily"%string)
          (Some "D"%string)
        = Ok (standard_status (at_time mon 4 0) next_due))
  /\ get_task_status strptime_digits default_shifts (at_time mon 4 0) (at_time mon 4 0)
       (at_time mon 3 0) (Some "2024-01-07 23:00:00"%string)
       (Some "start_shift_daily"%string) (Some "D"%string)
     = Ok overdue.
Proof.
  split; [reflexivity | ]. split; [reflexivity | ].
  split; [reflexivity | ]. split; [reflexivity | ].
  assert (Hcheck : completion_check strptime_digits default_shifts (at_time mon 4 0)
                     (Some "2024-01-07 23:00:00"%string)
                     (Some "start_shift_daily"%string) (Some "D"%string) = Ok false)
    by (vm_compute; reflexivity).
  split.
  - intro next_due. apply get_task_status_not_completed. exact Hcheck.
  - rewrite (get_task_status_not_completed _ _ _ _ _ _ _ _ Hcheck). reflexivity.
Qed.
